(** * DeskGPT: a shallow embedding of the planning and execution core

    The development follows the layout of the Python package:

    - [PyStr]             the string builtins the sources rely on
                          ([str.startswith], [str.strip], [str.join], [in],
                          [int(str)]);
    - [Config]            [deskgpt/config/config.py];
    - [Commands]          [deskgpt/types/commands.py];
    - [LLMClient]         [deskgpt/core/llm_client.py];
    - [BrowserController] [deskgpt/core/browser_controller.py];
    - [CommandParser]     [deskgpt/core/command_parser.py].

    Python text is modelled by [string], one character per unit: the
    characters are the code points below 256.  Python [int] is [Z],
    [Optional[T]] is [option T], [dict] is [gmap], and a raised exception is
    the [Raise] branch of the result type [Exc].  The browser, the clock and
    the completion service are external: they are oracles that answer each
    call from the history of the calls made so far.

    The modules named above describe the program on a console and a log
    handler that accept every text.  Both render their text as markup and
    raise on text they cannot parse; [Logged] gives the same functions with
    the display and log calls that interpolate a value, each of which may
    raise. *)

From Stdlib Require Import ZArith String Ascii List Bool Lia.
From stdpp Require Import base option gmap strings list pretty.

Local Open Scope string_scope.
Local Open Scope Z_scope.

(** ** Exceptions *)

(** The exception classes that occur in the modelled code paths.  All of them
    derive from Python's [Exception]; [DriverError] stands for whatever the
    browser driver raises (its timeout and protocol errors), [MarkupError]
    is what the console and the log handler raise on text they cannot
    render. *)
Inductive ExnClass :=
| RuntimeError
| ValueError
| AttributeError
| TypeError
| OverflowError
| ValidationError
| DriverError
| MarkupError.

Record exn := Exn { exn_class : ExnClass; exn_msg : string }.

(** [str(e)] *)
Definition str_exn (e : exn) : string := exn_msg e.

Inductive Exc (A : Type) :=
| Ok (a : A)
| Raise (e : exn).
Arguments Ok {A} a.
Arguments Raise {A} e.

Definition is_ok {A} (r : Exc A) : bool :=
  match r with Ok _ => true | Raise _ => false end.

(** ** String builtins *)

Module PyStr.

(** [s.startswith(p)] *)
Definition startswith (p s : string) : bool := String.prefix p s.

(** [s.startswith((p1, p2, ...))] *)
Definition startswith_any (ps : list string) (s : string) : bool :=
  existsb (fun p => startswith p s) ps.

(** [needle in hay] *)
Fixpoint contains (needle hay : string) : bool :=
  startswith needle hay ||
  match hay with
  | EmptyString => false
  | String _ rest => contains needle rest
  end.

(** [sep.join(parts)] *)
Definition join (sep : string) (parts : list string) : string :=
  String.concat sep parts.

Definition ascii_eqb (a b : ascii) : bool := Ascii.eqb a b.

(** The characters for which [str.isspace] holds: TAB, LF, VT, FF, CR, the
    four separators FS, GS, RS, US, the space, NEL (U+0085) and the no-break
    space (U+00A0). *)
Definition isspace (c : ascii) : bool :=
  let n := N_of_ascii c in
  ((9 <=? n) && (n <=? 13) || (28 <=? n) && (n <=? 32)
   || (n =? 133) || (n =? 160))%N.

Fixpoint lstrip_by (drop : ascii -> bool) (s : string) : string :=
  match s with
  | EmptyString => EmptyString
  | String c rest => if drop c then lstrip_by drop rest else s
  end.

Fixpoint rstrip_by (drop : ascii -> bool) (s : string) : string :=
  match s with
  | EmptyString => EmptyString
  | String c rest =>
      match rstrip_by drop rest with
      | EmptyString => if drop c then EmptyString else String c EmptyString
      | kept => String c kept
      end
  end.

Definition strip_by (drop : ascii -> bool) (s : string) : string :=
  rstrip_by drop (lstrip_by drop s).

(** [s.strip()] *)
Definition strip (s : string) : string := strip_by isspace s.

(** [s.strip(chars)] *)
Definition strip_chars (chars : list ascii) (s : string) : string :=
  strip_by (fun c => existsb (ascii_eqb c) chars) s.

Definition dquote : ascii := ascii_of_nat 34.
Definition squote : ascii := ascii_of_nat 39.

Definition is_digit (c : ascii) : bool :=
  let n := N_of_ascii c in ((48 <=? n) && (n <=? 57))%N.

Definition digit_value (c : ascii) : Z := Z.of_N (N_of_ascii c) - 48.

(** The white space [int] skips around a literal: TAB, LF, VT, FF, CR and
    the space.  NEL and the no-break space count as well, because the
    conversion first turns every space outside ASCII into a space; FS, GS,
    RS and US are ASCII and are not skipped. *)
Definition int_space (c : ascii) : bool :=
  let n := N_of_ascii c in
  ((9 <=? n) && (n <=? 13) || (n =? 32) || (n =? 133) || (n =? 160))%N.

(** The run of digits a decimal literal starts with, most significant
    first, and the text after it.  A single underscore may separate two
    digits; [prev_digit] tells whether the character just read was a digit.
    [None] when an underscore is doubled or ends the run. *)
Fixpoint scan_digits (prev_digit : bool) (s : string) : option (list Z * string) :=
  match s with
  | EmptyString => if prev_digit then Some ([], EmptyString) else None
  | String c rest =>
      if is_digit c then
        match scan_digits true rest with
        | Some (ds, tail) => Some (digit_value c :: ds, tail)
        | None => None
        end
      else if ascii_eqb c "_"%char then
        if prev_digit then
          match rest with
          | String d _ => if is_digit d then scan_digits false rest else None
          | EmptyString => None
          end
        else None
      else if prev_digit then Some ([], s) else None
  end.

Definition digits_value (ds : list Z) : Z :=
  fold_left (fun acc d => 10 * acc + d) ds 0.

(** The interpreter's default bound on the number of digits accepted by a
    string to [int] conversion. *)
Definition max_str_digits : nat := 4300.

Inductive IntLiteral :=
| Parsed (z : Z)
| TooLong (digits : nat)     (* more digits than the conversion accepts *)
| Invalid.

(** How [int(s)] reads its argument in base 10: leading white space is
    skipped, an optional sign precedes the digits, the number of digits is
    checked against the bound, and only white space may follow. *)
Definition read_int (s : string) : IntLiteral :=
  let body := lstrip_by int_space s in
  let '(negative, magnitude) :=
    match body with
    | String "-"%char rest => (true, rest)
    | String "+"%char rest => (false, rest)
    | _ => (false, body)
    end in
  match magnitude with
  | EmptyString => Invalid
  | String c _ =>
      if is_digit c then
        match scan_digits false magnitude with
        | Some (ds, tail) =>
            if (max_str_digits <? List.length ds)%nat then TooLong (List.length ds)
            else if String.eqb (lstrip_by int_space tail) ""
            then Parsed (if negative then - digits_value ds else digits_value ds)
            else Invalid
        | None => Invalid
        end
      else Invalid
  end.

(** The value of [int(s)]; [None] is the [ValueError] case. *)
Definition parse_int (s : string) : option Z :=
  match read_int s with
  | Parsed z => Some z
  | TooLong _ | Invalid => None
  end.

Definition hex_digit (n : N) : ascii :=
  if (n <? 10)%N then ascii_of_N (48 + n) else ascii_of_N (87 + n).

(** [str.isprintable] of one character *)
Definition printable (c : ascii) : bool :=
  let n := N_of_ascii c in
  ((32 <=? n) && (n <=? 126) || (161 <=? n) && negb (n =? 173))%N.

Definition backslash : ascii := ascii_of_nat 92.

Fixpoint repr_body (quote : ascii) (s : string) : string :=
  match s with
  | EmptyString => EmptyString
  | String c rest =>
      let n := N_of_ascii c in
      (if ascii_eqb c quote || ascii_eqb c backslash
       then String backslash (String c EmptyString)
       else if (n =? 9)%N then String backslash "t"
       else if (n =? 10)%N then String backslash "n"
       else if (n =? 13)%N then String backslash "r"
       else if printable c then String c EmptyString
       else String backslash
              (String "x" (String (hex_digit (n / 16))
                             (String (hex_digit (n mod 16)) EmptyString))))
      +:+ repr_body quote rest
  end.

(** [repr(s)]: single quotes, unless the text holds a single quote and no
    double quote. *)
Definition repr (s : string) : string :=
  let quote :=
    if contains (String squote EmptyString) s
       && negb (contains (String dquote EmptyString) s)
    then dquote else squote in
  String quote (repr_body quote s +:+ String quote EmptyString).

(** [int(s)], raising [ValueError] as the builtin does.  The message of an
    invalid literal quotes at most the first 200 characters of [repr(s)]. *)
Definition int_of_str (s : string) : Exc Z :=
  match read_int s with
  | Parsed z => Ok z
  | TooLong digits =>
      Raise (Exn ValueError
               ("Exceeds the limit (4300 digits) for integer string conversion: value has "
                +:+ pretty (Z.of_nat digits)
                +:+ " digits; use sys.set_int_max_str_digits() to increase the limit"))
  | Invalid =>
      Raise (Exn ValueError
               ("invalid literal for int() with base 10: "
                +:+ String.substring 0 200 (repr s)))
  end.

End PyStr.

(** ** deskgpt/config/config.py *)

Module Config.

Record BrowserConfig := {
  headless : bool;
  timeout : Z;
  viewport_width : Z;
  viewport_height : Z
}.

Record LoggingConfig := { level : string }.

Record Config := {
  openai_api_key : string;
  browser : BrowserConfig;
  logging : LoggingConfig
}.

(** The process environment, after the optional local environment file has
    been merged into it at import time. *)
Abbreviation Environ := (gmap string string).

(** [os.getenv(key)] *)
Definition getenv (env : Environ) (key : string) : option string := env !! key.

(** [os.getenv(key, default)] *)
Definition getenv_default (env : Environ) (key default : string) : string :=
  match env !! key with Some v => v | None => default end.

(** [Config.from_env]: the keyword arguments are evaluated in source order,
    so the first [int(...)] that fails decides the exception raised. *)
Definition from_env (env : Environ) : Exc Config :=
  let key := getenv_default env "OPENAI_API_KEY" "" in
  let headless := bool_decide (getenv env "NODE_ENV" = Some "production") in
  match PyStr.int_of_str (getenv_default env "BROWSER_TIMEOUT" "30000") with
  | Raise e => Raise e
  | Ok timeout =>
      match PyStr.int_of_str (getenv_default env "VIEWPORT_WIDTH" "1920") with
      | Raise e => Raise e
      | Ok width =>
          match PyStr.int_of_str (getenv_default env "VIEWPORT_HEIGHT" "1080") with
          | Raise e => Raise e
          | Ok height =>
              Ok {| openai_api_key := key;
                    browser := {| headless := headless;
                                  timeout := timeout;
                                  viewport_width := width;
                                  viewport_height := height |};
                    logging := {| level := getenv_default env "LOG_LEVEL" "INFO" |} |}
          end
      end
  end.

(** Whether each of the three numeric settings is unset or holds text that
    [int] accepts. *)
Definition numeric_settings_ok (env : Environ) : bool :=
  forallb (fun key => match env !! key with
                      | Some v => bool_decide (is_Some (PyStr.parse_int v))
                      | None => true
                      end)
          ["BROWSER_TIMEOUT"; "VIEWPORT_WIDTH"; "VIEWPORT_HEIGHT"].

(** [validate_config] *)
Definition validate_config (c : Config) : Exc unit :=
  if String.eqb (openai_api_key c) ""
  then Raise (Exn ValueError "OPENAI_API_KEY environment variable is required")
  else Ok tt.

End Config.

(** ** deskgpt/types/commands.py *)

Module Commands.

Inductive ActionType := NAVIGATE | CLICK | TYPE | SCROLL | WAIT | SCREENSHOT | EXTRACT.
Inductive ScrollDirection := UP | DOWN.
Inductive ExtractType := TEXT | HTML | LINKS.
Inductive TaskStatus := PENDING | RUNNING | COMPLETED | FAILED.

Definition ActionType_value (t : ActionType) : string :=
  match t with
  | NAVIGATE => "navigate" | CLICK => "click" | TYPE => "type"
  | SCROLL => "scroll" | WAIT => "wait" | SCREENSHOT => "screenshot"
  | EXTRACT => "extract"
  end.

Definition ScrollDirection_value (d : ScrollDirection) : string :=
  match d with UP => "up" | DOWN => "down" end.

Definition ExtractType_value (x : ExtractType) : string :=
  match x with TEXT => "text" | HTML => "html" | LINKS => "links" end.

Definition ActionType_eqb (a b : ActionType) : bool :=
  String.eqb (ActionType_value a) (ActionType_value b).

(** Dynamically typed values: what the driver hands back and what a result's
    [data] dictionary holds. *)
#[warnings="-register-all"]
Inductive PyVal :=
| VNone
| VBool (b : bool)
| VInt (z : Z)
| VStr (s : string)
| VList (items : list PyVal)
| VDict (entries : list (string * PyVal))
| VHandle (h : nat).

(** Python truthiness *)
Definition truthy (v : PyVal) : bool :=
  match v with
  | VNone => false
  | VBool b => b
  | VInt z => negb (z =? 0)%Z
  | VStr s => negb (String.eqb s "")
  | VList items => match items with [] => false | _ => true end
  | VDict entries => match entries with [] => false | _ => true end
  | VHandle _ => true
  end.

(** Truthiness of an [Optional[str]] field *)
Definition truthy_str (o : option string) : bool :=
  match o with Some s => negb (String.eqb s "") | None => false end.

(** Truthiness of an [Optional[int]] field *)
Definition truthy_int (o : option Z) : bool :=
  match o with Some z => negb (z =? 0)%Z | None => false end.

Record WebAction := {
  type : ActionType;
  selector : option string;
  text : option string;
  url : option string;
  wait_time : option Z;
  scroll_direction : option ScrollDirection;
  extract_type : option ExtractType
}.

Record CommandResult := {
  success : bool;
  data : option (gmap string PyVal);
  error : option string;
  screenshot : option string
}.

Record AutomationTask := {
  id : string;
  prompt : string;
  actions : list WebAction;
  results : list CommandResult;
  status : TaskStatus
}.

End Commands.

(** ** deskgpt/core/llm_client.py *)

Module LLMClient.
Import Commands.

(** One element of the decoded reply, as handed to the [WebAction]
    constructor (its keys become the keyword arguments).
    The model covers objects whose fields have the JSON kind their
    declaration expects (text, or an integer for [wait_time]); a missing key
    and [null] both read as [None].  The three enumerated fields still hold
    arbitrary text: the constructor is what checks it. *)
Record ActionData := {
  d_type : option string;
  d_selector : option string;
  d_text : option string;
  d_url : option string;
  d_wait_time : option Z;
  d_scroll_direction : option string;
  d_extract_type : option string
}.

Definition ActionType_of_value (s : string) : option ActionType :=
  List.find (fun t => String.eqb (ActionType_value t) s)
    [NAVIGATE; CLICK; TYPE; SCROLL; WAIT; SCREENSHOT; EXTRACT].

Definition ScrollDirection_of_value (s : string) : option ScrollDirection :=
  List.find (fun d => String.eqb (ScrollDirection_value d) s) [UP; DOWN].

Definition ExtractType_of_value (s : string) : option ExtractType :=
  List.find (fun x => String.eqb (ExtractType_value x) s) [TEXT; HTML; LINKS].

(** Validation of an optional enumerated field: absent stays absent, a
    member's value becomes the member, anything else is rejected
    (outer [None]). *)
Definition optional_enum {A} (of_value : string -> option A) (o : option string)
  : option (option A) :=
  match o with
  | None => Some None
  | Some s => match of_value s with Some a => Some (Some a) | None => None end
  end.

(** The message of the model library's validation error, reduced to its
    heading. *)
Definition validation_error : exn :=
  Exn ValidationError "validation error for WebAction".

(** The [WebAction] constructor applied to the keys of [action_data]: the
    declared field types are enforced at construction; [type] is required
    and must be the value of a member of [ActionType], and a present
    [scroll_direction] or [extract_type] must be the value of a member of its
    enumeration. *)
Definition WebAction_construct (d : ActionData) : Exc WebAction :=
  match d_type d with
  | None => Raise validation_error
  | Some tag =>
      match ActionType_of_value tag,
            optional_enum ScrollDirection_of_value (d_scroll_direction d),
            optional_enum ExtractType_of_value (d_extract_type d) with
      | Some t, Some dir, Some ext =>
          Ok {| type := t;
                selector := d_selector d;
                text := d_text d;
                url := d_url d;
                wait_time := d_wait_time d;
                scroll_direction := dir;
                extract_type := ext |}
      | _, _, _ => Raise validation_error
      end
  end.

(** The list comprehension that constructs a [WebAction] from every element
    of [actions_data]: the first element that fails to construct raises out
    of the comprehension. *)
Fixpoint construct_all (items : list ActionData) : Exc (list WebAction) :=
  match items with
  | [] => Ok []
  | d :: rest =>
      match WebAction_construct d with
      | Raise e => Raise e
      | Ok a =>
          match construct_all rest with
          | Raise e => Raise e
          | Ok acts => Ok (a :: acts)
          end
      end
  end.

(** What [x in SomeEnum] does when [x] is [None] depends on the interpreter:
    it raises [TypeError] before 3.12 and answers [False] from 3.12 on.
    For a member it answers [True] in both. *)
Inductive EnumContains := NonMemberRaises | NonMemberIsFalse.

(** What the completion request and the decoding of its reply produce. *)
Inductive Reply :=
| ApiFailure (e : exn)             (* the request itself raised *)
| NoContent                        (* the message content is empty *)
| NotJson (detail : string)        (* [json.loads] raised [JSONDecodeError] *)
| Decoded (items : list ActionData).

Section Validation.
Variable enum_contains : EnumContains.

(** [x in E] for an optional field holding a member of [E] or [None] *)
Definition enum_in {A} (x : option A) : Exc bool :=
  match x with
  | Some _ => Ok true
  | None =>
      match enum_contains with
      | NonMemberIsFalse => Ok false
      | NonMemberRaises =>
          Raise (Exn TypeError "unsupported operand type(s) for 'in': 'NoneType' and 'EnumMeta'")
      end
  end.

(** [_is_valid_action] *)
Definition _is_valid_action (action : WebAction) : Exc bool :=
  match enum_in (Some (type action)) with
  | Raise e => Raise e
  | Ok false => Ok false
  | Ok true =>
      if ActionType_eqb (type action) NAVIGATE && negb (truthy_str (url action))
      then Ok false
      else if existsb (ActionType_eqb (type action)) [CLICK; TYPE]
              && negb (truthy_str (selector action))
      then Ok false
      else if ActionType_eqb (type action) TYPE && negb (truthy_str (text action))
      then Ok false
      else
        match (if ActionType_eqb (type action) SCROLL
               then enum_in (scroll_direction action) else Ok true) with
        | Raise e => Raise e
        | Ok false => Ok false
        | Ok true =>
            match (if ActionType_eqb (type action) EXTRACT
                   then enum_in (extract_type action) else Ok true) with
            | Raise e => Raise e
            | Ok false => Ok false
            | Ok true => Ok true
            end
        end
  end.

(** [_validate_actions]: the loop appends the valid actions to
    [valid_actions] in order and skips the others.  The warning logged for a
    skipped action is part of [Logged.validate_loop]. *)
Fixpoint validate_loop (actions valid_actions : list WebAction)
  : Exc (list WebAction) :=
  match actions with
  | [] => Ok valid_actions
  | action :: rest =>
      match _is_valid_action action with
      | Raise e => Raise e
      | Ok false => validate_loop rest valid_actions
      | Ok true => validate_loop rest (valid_actions ++ [action])%list
      end
  end.

Definition _validate_actions (actions : list WebAction) : Exc (list WebAction) :=
  validate_loop actions [].

(** The [except Exception] handler of [generate_web_actions], once it has
    logged the error *)
Definition generation_failed {A} (e : exn) : Exc A :=
  Raise (Exn ValueError ("Failed to generate actions: " +:+ str_exn e)).

(** [generate_web_actions], from the reply of the completion request on,
    when the log accepts what the handlers and the validation write to it
    ([Logged.generate_web_actions] has these calls).
    [ValueError("No response from OpenAI")] is raised inside the [try] and
    is not a [JSONDecodeError], so it is re-raised by the general
    handler. *)
Definition generate_web_actions (reply : Reply) : Exc (list WebAction) :=
  match reply with
  | ApiFailure e => generation_failed e
  | NoContent => generation_failed (Exn ValueError "No response from OpenAI")
  | NotJson detail =>
      Raise (Exn ValueError ("Invalid JSON response from OpenAI: " +:+ detail))
  | Decoded items =>
      match construct_all items with
      | Raise e => generation_failed e
      | Ok actions =>
          match _validate_actions actions with
          | Raise e => generation_failed e
          | Ok valid => Ok valid
          end
      end
  end.

End Validation.

End LLMClient.

(** ** deskgpt/core/browser_controller.py *)

Module BrowserController.
Import Commands.

(** The awaited driver operations and the pauses, as they appear in the
    trace of a run.  Timeouts are in milliseconds as in the source; the
    argument of [AsyncioSleep] is the pause in milliseconds (the source
    passes seconds, [1] or [milliseconds / 1000.0]). *)
Inductive Call :=
| PlaywrightStart
| ChromiumLaunch (headless : bool) (args : list string)
| NewPage
| SetViewportSize (width height : Z)
| SetDefaultTimeout (timeout : Z)
| PageGoto (url : string) (wait_until : string)
| WaitForSelector (selector : option string) (timeout : Z)
| PageClick (selector : option string)
| GetByTextClick (text : string) (exact : bool) (timeout : Z)
| LocatorFirstClick (selector : string) (timeout : Z)
| GetByRoleClick (role name : string) (exact : bool) (timeout : Z)
| KeyboardPress (key : string)
| PageFill (selector text : option string)
| PageEvaluate (expression : string)
| PageScreenshot (path : string) (full_page : bool)
| QuerySelector (selector : string)
| ElementTextContent (element : PyVal)
| ElementInnerHtml (element : PyVal)
| PageContent
| PageClose
| BrowserClose
| PlaywrightStop
| AsyncioSleep (milliseconds : Z).

Abbreviation Trace := (list Call).

(** Everything outside the program.  Each oracle sees the calls made so
    far, so its answers may depend on what the program did before. *)
Record World := {
  (* how the interpreter evaluates [None in SomeEnum] *)
  enum_contains : LLMClient.EnumContains;
  (* an awaited driver operation: its value, or the exception it raises *)
  respond : Trace -> Call -> Exc PyVal;
  (* the [page.url] attribute *)
  page_url : Trace -> string;
  (* [datetime.now().strftime("%Y-%m-%d_%H-%M-%S")] *)
  timestamp : Trace -> string;
  (* the completion request for a prompt, the current URL and page content *)
  completion : Trace -> string -> string -> option PyVal -> LLMClient.Reply
}.

(** The controller object together with the trace of the run.  The three
    handles hold [VNone] until [initialize] assigns them. *)
Record State := {
  playwright : PyVal;
  browser : PyVal;
  page : PyVal;
  trace : Trace
}.

(** The state [__init__] leaves *)
Definition init : State :=
  {| playwright := VNone; browser := VNone; page := VNone; trace := [] |}.

Definition set_playwright (v : PyVal) (st : State) : State :=
  {| playwright := v; browser := browser st; page := page st; trace := trace st |}.
Definition set_browser (v : PyVal) (st : State) : State :=
  {| playwright := playwright st; browser := v; page := page st; trace := trace st |}.
Definition set_page (v : PyVal) (st : State) : State :=
  {| playwright := playwright st; browser := browser st; page := v; trace := trace st |}.
Definition log_call (c : Call) (st : State) : State :=
  {| playwright := playwright st; browser := browser st; page := page st;
     trace := (trace st ++ [c])%list |}.

(** Computations that read and write the controller and may raise *)
Definition M (A : Type) : Type := State -> Exc A * State.

Definition ret {A} (a : A) : M A := fun st => (Ok a, st).
Definition raise {A} (e : exn) : M A := fun st => (Raise e, st).
Definition bind {A B} (m : M A) (k : A -> M B) : M B :=
  fun st =>
    match m st with
    | (Ok a, st') => k a st'
    | (Raise e, st') => (Raise e, st')
    end.
(** [try: body / except Exception as e: handler e] *)
Definition try_except {A} (body : M A) (handler : exn -> M A) : M A :=
  fun st =>
    match body st with
    | (Ok a, st') => (Ok a, st')
    | (Raise e, st') => handler e st'
    end.
Definition get : M State := fun st => (Ok st, st).
Definition modify (f : State -> State) : M unit := fun st => (Ok tt, f st).

Notation "x <- m ;; k" := (bind m (fun x => k))
  (at level 100, m at next level, right associativity).
Notation "m ;;; k" := (bind m (fun _ => k))
  (at level 100, right associativity).

Definition succeeded (d : gmap string PyVal) (shot : option string) : CommandResult :=
  {| success := true; data := Some d; error := None; screenshot := shot |}.
Definition failed (message : string) : CommandResult :=
  {| success := false; data := None; error := Some message; screenshot := None |}.

Definition opt_str (o : option string) : PyVal :=
  match o with Some s => VStr s | None => VNone end.

Definition none_has_no (attribute : string) : exn :=
  Exn AttributeError ("'NoneType' object has no attribute '" +:+ attribute +:+ "'").

(** The script evaluated for [ExtractType.LINKS] *)
Definition links_script : string := "
                Array.from(document.querySelectorAll('a')).map(link => ({
                    text: link.textContent?.trim(),
                    href: link.href,
                    title: link.title
                }))
            ".

(** Integers from this bound on do not convert to a float: the division
    [milliseconds / 1000.0] raises [OverflowError] for them. *)
Definition float_overflow_bound : Z := 2 ^ 1024 - 2 ^ 970.
Arguments float_overflow_bound : simpl never.

Section Controller.
Variable w : World.

(** An awaited driver operation *)
Definition call (c : Call) : M PyVal :=
  fun st => (respond w (trace st) c, log_call c st).

(** [await asyncio.sleep(...)] *)
Definition sleep (milliseconds : Z) : M unit :=
  modify (log_call (AsyncioSleep milliseconds)).

(** [initialize] *)
Definition launch_args : list string :=
  ["--no-sandbox"; "--disable-setuid-sandbox"; "--disable-dev-shm-usage";
   "--disable-web-security"; "--disable-features=VizDisplayCompositor"].

(** [close], when the log accepts the text of a failure ([Logged.close]
    has the handler's log call) *)
Definition close : M unit :=
  try_except
    (st <- get ;;
     (if truthy (page st)
      then call PageClose ;;; modify (set_page VNone)
      else ret tt) ;;;
     st <- get ;;
     (if truthy (browser st)
      then call BrowserClose ;;; modify (set_browser VNone)
      else ret tt) ;;;
     st <- get ;;
     (if truthy (playwright st)
      then call PlaywrightStop ;;; modify (set_playwright VNone)
      else ret tt))
    (fun e => raise e).

(** [initialize], when the log accepts the text of a failure
    ([Logged.initialize] has the handler's log call) *)
Definition initialize (config : Config.Config) : M unit :=
  try_except
    (pw <- call PlaywrightStart ;;
     modify (set_playwright pw) ;;;
     br <- call (ChromiumLaunch (Config.headless (Config.browser config)) launch_args) ;;
     modify (set_browser br) ;;;
     pg <- call NewPage ;;
     modify (set_page pg) ;;;
     call (SetViewportSize (Config.viewport_width (Config.browser config))
                           (Config.viewport_height (Config.browser config))) ;;;
     call (SetDefaultTimeout (Config.timeout (Config.browser config))) ;;;
     ret tt)
    (fun e => close ;;; raise e).

(** [_navigate] *)
Definition _navigate (url : option string) : M CommandResult :=
  match url with
  | None => raise (none_has_no "startswith")
  | Some url =>
      let url := if PyStr.startswith_any ["http://"; "https://"] url
                 then url else "https://" +:+ url in
      call (PageGoto url "networkidle") ;;;
      st <- get ;;
      let current_url := page_url w (trace st) in
      ret (succeeded {[ "url" := VStr current_url; "action" := VStr "navigated" ]} None)
  end.

(** The fallback heuristics of [_click], entered when the selector as
    given could not be clicked.  [clicked] and [errors] are the two local
    variables of the handler. *)
Definition click_text (selector : string) : M (bool * list string) :=
  if negb (PyStr.startswith_any ["text="; "xpath="; "css="] selector) then
    let text_candidate :=
      PyStr.strip_chars [PyStr.dquote; PyStr.squote] (PyStr.strip selector) in
    try_except
      (call (GetByTextClick text_candidate true 5000) ;;; ret (true, []))
      (fun e =>
         let errors := ["text exact failed: " +:+ str_exn e] in
         try_except
           (call (GetByTextClick text_candidate false 5000) ;;; ret (true, errors))
           (fun e2 => ret (false, (errors ++ ["text partial failed: " +:+ str_exn e2])%list)))
  else ret (false, []).

Definition click_xpath (selector : string) (s : bool * list string)
  : M (bool * list string) :=
  let '(clicked, errors) := s in
  if negb clicked then
    let xpath_selector :=
      if PyStr.startswith "xpath=" selector then selector else "xpath=" +:+ selector in
    try_except
      (call (LocatorFirstClick xpath_selector 5000) ;;; ret (true, errors))
      (fun e => ret (false, (errors ++ ["xpath failed: " +:+ str_exn e])%list))
  else ret s.

Definition click_role (selector : string) (s : bool * list string)
  : M (bool * list string) :=
  let '(clicked, errors) := s in
  if negb clicked then
    try_except
      (call (GetByRoleClick "button" selector true 5000) ;;; ret (true, errors))
      (fun e => ret (false, (errors ++ ["role button exact failed: " +:+ str_exn e])%list))
  else ret s.

Definition click_fallbacks (selector : option string) : M unit :=
  match selector with
  | None => raise (none_has_no "startswith")
  | Some selector =>
      s <- click_text selector ;;
      s <- click_xpath selector s ;;
      s <- click_role selector s ;;
      let '(clicked, errors) := s in
      if negb clicked then
        raise (Exn RuntimeError
                 ("Failed to click element with provided selector and fallbacks. "
                  +:+ PyStr.join "; " errors))
      else ret tt
  end.

(** The [try] block of [_click]: the selector as given *)
Definition click_verbatim (selector : option string) : M unit :=
  call (WaitForSelector selector 7000) ;;;
  call (PageClick selector) ;;;
  ret tt.

(** [_click] *)
Definition _click (selector : option string) : M CommandResult :=
  try_except (click_verbatim selector) (fun _ => click_fallbacks selector) ;;;
  sleep 1000 ;;;
  ret (succeeded {[ "selector" := opt_str selector; "action" := VStr "clicked" ]} None).

(** [_type] *)
Definition _type (selector text : option string) : M CommandResult :=
  call (WaitForSelector selector 10000) ;;;
  call (PageClick selector) ;;;
  call (KeyboardPress "Control+KeyA") ;;;
  call (PageFill selector text) ;;;
  ret (succeeded {[ "selector" := opt_str selector; "text" := opt_str text;
                    "action" := VStr "typed" ]} None).

(** [_scroll] *)
Definition _scroll (direction : ScrollDirection) : M CommandResult :=
  let scroll_amount := match direction with DOWN => 500 | UP => -500 end in
  call (PageEvaluate ("window.scrollBy(0, " +:+ pretty scroll_amount +:+ ")")) ;;;
  sleep 1000 ;;;
  ret (succeeded {[ "direction" := VStr (ScrollDirection_value direction);
                    "scroll_amount" := VInt scroll_amount ]} None).

(** [_wait] *)
Definition _wait (milliseconds : Z) : M CommandResult :=
  (if float_overflow_bound <=? Z.abs milliseconds
   then raise (Exn OverflowError "int too large to convert to float")
   else sleep milliseconds) ;;;
  ret (succeeded {[ "wait_time" := VInt milliseconds ]} None).

(** [_screenshot]: [screenshot_dir] is [Path("./screenshots")], whose
    text is [screenshots]. *)
Definition _screenshot : M CommandResult :=
  st <- get ;;
  let filename := "screenshot-" +:+ timestamp w (trace st) +:+ ".png" in
  let filepath := "screenshots/" +:+ filename in
  call (PageScreenshot filepath true) ;;;
  ret (succeeded {[ "filename" := VStr filename; "path" := VStr filepath ]}
                 (Some filepath)).

(** [_extract] *)
Definition _extract (extract_type : ExtractType) (selector : option string)
  : M CommandResult :=
  data <-
    match extract_type with
    | TEXT =>
        match selector with
        | Some sel =>
            if truthy_str selector then
              element <- call (QuerySelector sel) ;;
              if truthy element then call (ElementTextContent element) else ret VNone
            else call (PageEvaluate "document.body.textContent")
        | None => call (PageEvaluate "document.body.textContent")
        end
    | HTML =>
        match selector with
        | Some sel =>
            if truthy_str selector then
              element <- call (QuerySelector sel) ;;
              if truthy element then call (ElementInnerHtml element) else ret VNone
            else call PageContent
        | None => call PageContent
        end
    | LINKS => call (PageEvaluate links_script)
    end ;;
  ret (succeeded {[ "extract_type" := VStr (ExtractType_value extract_type);
                    "content" := data ]} None).

(** The [try] block of [execute_action].  The closing [else] of the
    source (an unknown action type) has no counterpart: [ActionType] is a
    closed enumeration. *)
Definition dispatch (action : WebAction) : M CommandResult :=
  match type action with
  | NAVIGATE => _navigate (url action)
  | CLICK => _click (selector action)
  | TYPE => _type (selector action) (text action)
  | SCROLL =>
      _scroll (match scroll_direction action with Some d => d | None => DOWN end)
  | WAIT =>
      _wait (if truthy_int (wait_time action)
             then match wait_time action with Some t => t | None => 1000 end
             else 1000)
  | SCREENSHOT => _screenshot
  | EXTRACT =>
      _extract (match extract_type action with Some x => x | None => TEXT end)
               (selector action)
  end.

(** [execute_action], when the log accepts the text of an error
    ([Logged.execute_action] has the handler's log call) *)
Definition execute_action (action : WebAction) : M CommandResult :=
  st <- get ;;
  if negb (truthy (page st)) then
    raise (Exn RuntimeError "Browser not initialized")
  else
    try_except (dispatch action) (fun e => ret (failed (str_exn e))).

(** [get_current_url] *)
Definition get_current_url : M string :=
  st <- get ;;
  ret (if truthy (page st) then page_url w (trace st) else "").

(** [get_page_content], when the log accepts the text of a failure
    ([Logged.get_page_content] has the handler's log call) *)
Definition get_page_content : M PyVal :=
  st <- get ;;
  if negb (truthy (page st)) then ret (VStr "")
  else
    try_except
      (content <- call PageContent ;;
       ret (if truthy content then content else VStr ""))
      (fun _ => ret (VStr "")).

End Controller.

End BrowserController.

(** ** deskgpt/core/command_parser.py *)

Module CommandParser.
Import Commands BrowserController.

(** [_generate_task_id], from [int(time.time())] and [uuid.uuid4().hex] *)
Definition _generate_task_id (seconds : Z) (uuid_hex : string) : string :=
  "task-" +:+ pretty seconds +:+ "-" +:+ String.substring 0 8 uuid_hex.

Definition set_status (s : TaskStatus) (task : AutomationTask) : AutomationTask :=
  {| id := id task; prompt := prompt task; actions := actions task;
     results := results task; status := s |}.

Definition set_actions (acts : list WebAction) (task : AutomationTask) : AutomationTask :=
  {| id := id task; prompt := prompt task; actions := acts;
     results := results task; status := status task |}.

(** [task.results.append(result)] *)
Definition append_result (r : CommandResult) (task : AutomationTask) : AutomationTask :=
  {| id := id task; prompt := prompt task; actions := actions task;
     results := (results task ++ [r])%list; status := status task |}.

(** [sum(1 for r in task.results if r.success)] *)
Definition successful_actions (rs : list CommandResult) : Z :=
  fold_left (fun acc r => if success r then acc + 1 else acc) rs 0.

(** [len(task.results)] *)
Definition total_actions (rs : list CommandResult) : Z := Z.of_nat (List.length rs).

(** The status the closing [if]/[elif]/[else] of [execute_task] assigns *)
Definition final_status (rs : list CommandResult) : TaskStatus :=
  if successful_actions rs =? total_actions rs then COMPLETED
  else if 0 <? successful_actions rs then COMPLETED
  else FAILED.

Section Parser.
Variable w : World.

(** The [for] loop of [execute_task], when the console and the log accept
    what each step shows ([Logged.run_actions] has these calls).  An
    exception leaving [execute_action] leaves the loop too; the task keeps
    the results appended so far. *)
Fixpoint run_actions (acts : list WebAction) (task : AutomationTask) (st : State)
  : option exn * AutomationTask * State :=
  match acts with
  | [] => (None, task, st)
  | action :: rest =>
      match execute_action w action st with
      | (Raise e, st') => (Some e, task, st')
      | (Ok result, st') =>
          run_actions rest (append_result result task)
                      (log_call (AsyncioSleep 1000) st')
      end
  end.

(** The [except Exception] handler of [execute_task] *)
Definition task_failed (e : exn) (task : AutomationTask) : AutomationTask :=
  append_result (failed (str_exn e)) (set_status FAILED task).

(** The context read before planning: the current URL, and the page
    content when that URL is not empty. *)
Definition page_context : M (string * option PyVal) :=
  current_url <- get_current_url w ;;
  if negb (String.eqb current_url "")
  then (content <- get_page_content w ;; ret (current_url, Some content))
  else ret (current_url, None).

(** [execute_task], when the console and the log accept every text, so
    that a task is always returned ([Logged.execute_task] has the display
    and log calls, and agrees with this function when none of them raises).
    A fresh task starts with its own empty [actions] and [results]: the
    model class copies the mutable defaults. *)
Definition execute_task (seconds : Z) (uuid_hex : string) (prompt : string)
  (st : State) : AutomationTask * State :=
  let task := {| id := _generate_task_id seconds uuid_hex; prompt := prompt;
                 actions := []; results := []; status := PENDING |} in
  let task := set_status RUNNING task in
  match page_context st with
  | (Raise e, st) => (task_failed e task, st)
  | (Ok (current_url, page_content), st) =>
      match LLMClient.generate_web_actions (enum_contains w)
              (completion w (trace st) prompt current_url page_content) with
      | Raise e => (task_failed e task, st)
      | Ok acts =>
          let task := set_actions acts task in
          match run_actions acts task st with
          | (Some e, task, st) => (task_failed e task, st)
          | (None, task, st) => (set_status (final_status (results task)) task, st)
          end
      end
  end.

End Parser.

End CommandParser.

(** ** The display and log calls *)

Module Logged.
Import Commands LLMClient BrowserController CommandParser.

(** The calls of [console.print] and of the module loggers whose text
    interpolates a value, each with what it interpolates.  [logger.py]
    installs a handler that renders every message as markup, and the console
    does the same with what it prints: a text holding a closing tag that
    matches no open tag makes the call raise.  Calls whose text is fixed, or
    interpolates only a number, a task identifier without its prompt or the
    name of an enumeration member, always render and are not listed. *)
Inductive Output :=
(* browser_controller.py *)
| LogInitializeFailed (e : exn)              (* Failed to initialize browser: {e} *)
| LogActionError (t : ActionType) (e : exn)  (* Error executing action {action.type}: {e} *)
| LogPageContentFailed (e : exn)             (* Failed to get page content: {e} *)
| LogCloseError (e : exn)                    (* Error closing browser: {e} *)
(* llm_client.py *)
| LogJsonError (detail : string)             (* Failed to parse JSON response: {e} *)
| LogGenerationError (e : exn)               (* Error generating web actions: {e} *)
| LogSkipping (action : WebAction)           (* Skipping invalid action: {action} *)
(* command_parser.py *)
| LogTaskStarted (task_id prompt : string)   (* Task {task_id} started: '{prompt}' *)
| PrintProcessing (prompt : string)          (* Processing: {prompt} *)
| PrintPlanned (i : nat) (action : WebAction) (* {i}. {description of action} *)
| PrintStep (i : nat) (action : WebAction)   (* Step {i}: {description of action} *)
| PrintSuccess (result : CommandResult)      (* Success: {description of result} *)
| PrintScreenshot (path : string)            (* Screenshot saved: {result.screenshot} *)
| PrintFailed (error : option string)        (* Failed: {result.error} *)
| LogActionFailed (i : nat) (error : option string) (* Action {i} failed: {result.error} *)
| PrintTaskFailed (error_msg : string)       (* Task execution failed: {error_msg} *)
| LogTaskError (task_id error_msg : string). (* Task {task_id} failed with error: {error_msg} *)

Section Reporting.

(** What the console or the log handler does with a call: [None] when the
    call returns, the exception when it raises.  Rendering depends on the
    text alone, so the answer does not depend on the history of the run. *)
Variable emit : Output -> option exn.

Definition announce (o : Output) : M unit :=
  fun st => match emit o with
            | None => (Ok tt, st)
            | Some e => (Raise e, st)
            end.

(** Calls made one after the other: the first that raises ends them *)
Fixpoint emit_all (os : list Output) : option exn :=
  match os with
  | [] => None
  | o :: rest =>
      match emit o with
      | Some e => Some e
      | None => emit_all rest
      end
  end.

(** *** llm_client.py *)

Section Planner.
Variable enum_contains : EnumContains.

(** [_validate_actions]: an action that fails validation is logged with a
    warning that shows the action, then skipped.  The warnings of
    [_is_valid_action] itself show fixed text, a member or [None]. *)
Fixpoint validate_loop (actions valid_actions : list WebAction)
  : Exc (list WebAction) :=
  match actions with
  | [] => Ok valid_actions
  | action :: rest =>
      match _is_valid_action enum_contains action with
      | Raise e => Raise e
      | Ok false =>
          match emit (LogSkipping action) with
          | Some e => Raise e
          | None => validate_loop rest valid_actions
          end
      | Ok true => validate_loop rest (valid_actions ++ [action])%list
      end
  end.

Definition _validate_actions (actions : list WebAction) : Exc (list WebAction) :=
  validate_loop actions [].

(** The [except Exception] handler of [generate_web_actions]: the error is
    logged, then wrapped. *)
Definition generation_failed {A} (e : exn) : Exc A :=
  match emit (LogGenerationError e) with
  | Some raised => Raise raised
  | None => Raise (Exn ValueError ("Failed to generate actions: " +:+ str_exn e))
  end.

(** [generate_web_actions], from the reply of the completion request on *)
Definition generate_web_actions (reply : Reply) : Exc (list WebAction) :=
  match reply with
  | ApiFailure e => generation_failed e
  | NoContent => generation_failed (Exn ValueError "No response from OpenAI")
  | NotJson detail =>
      match emit (LogJsonError detail) with
      | Some raised => Raise raised
      | None => Raise (Exn ValueError ("Invalid JSON response from OpenAI: " +:+ detail))
      end
  | Decoded items =>
      match construct_all items with
      | Raise e => generation_failed e
      | Ok actions =>
          match _validate_actions actions with
          | Raise e => generation_failed e
          | Ok valid => Ok valid
          end
      end
  end.

End Planner.

(** *** browser_controller.py *)

Section Controller.
Variable w : World.

(** [close]: the handler logs the failure of a step before it raises it
    again. *)
Definition close : M unit :=
  try_except
    (st <- get ;;
     (if truthy (page st)
      then call w PageClose ;;; modify (set_page VNone)
      else ret tt) ;;;
     st <- get ;;
     (if truthy (browser st)
      then call w BrowserClose ;;; modify (set_browser VNone)
      else ret tt) ;;;
     st <- get ;;
     (if truthy (playwright st)
      then call w PlaywrightStop ;;; modify (set_playwright VNone)
      else ret tt))
    (fun e => announce (LogCloseError e) ;;; raise e).

(** [initialize]: the handler logs the failure, then closes, then raises the
    failure again. *)
Definition initialize (config : Config.Config) : M unit :=
  try_except
    (pw <- call w PlaywrightStart ;;
     modify (set_playwright pw) ;;;
     br <- call w (ChromiumLaunch (Config.headless (Config.browser config)) launch_args) ;;
     modify (set_browser br) ;;;
     pg <- call w NewPage ;;
     modify (set_page pg) ;;;
     call w (SetViewportSize (Config.viewport_width (Config.browser config))
                             (Config.viewport_height (Config.browser config))) ;;;
     call w (SetDefaultTimeout (Config.timeout (Config.browser config))) ;;;
     ret tt)
    (fun e => announce (LogInitializeFailed e) ;;; close ;;; raise e).

(** [execute_action]: the handler logs the error before it returns the
    failed result. *)
Definition execute_action (action : WebAction) : M CommandResult :=
  st <- get ;;
  if negb (truthy (page st)) then
    raise (Exn RuntimeError "Browser not initialized")
  else
    try_except (dispatch w action)
      (fun e => announce (LogActionError (type action) e) ;;;
                ret (failed (str_exn e))).

(** [get_page_content]: the handler logs a warning before it returns the
    empty text. *)
Definition get_page_content : M PyVal :=
  st <- get ;;
  if negb (truthy (page st)) then ret (VStr "")
  else
    try_except
      (content <- call w PageContent ;;
       ret (if truthy content then content else VStr ""))
      (fun e => announce (LogPageContentFailed e) ;;; ret (VStr "")).

End Controller.

(** *** command_parser.py *)

Section Parser.
Variable w : World.

Definition page_context : M (string * option PyVal) :=
  current_url <- get_current_url w ;;
  if negb (String.eqb current_url "")
  then (content <- get_page_content w ;; ret (current_url, Some content))
  else ret (current_url, None).

(** The lines that show the plan, numbered from [i] *)
Fixpoint planned (i : nat) (acts : list WebAction) : list Output :=
  match acts with
  | [] => []
  | action :: rest => PrintPlanned i action :: planned (S i) rest
  end.

(** What is shown and logged for the result of step [i] *)
Definition result_outputs (i : nat) (result : CommandResult) : list Output :=
  if success result then
    PrintSuccess result ::
    (if truthy_str (screenshot result)
     then match screenshot result with
          | Some path => [PrintScreenshot path]
          | None => []
          end
     else [])
  else [PrintFailed (error result); LogActionFailed i (error result)].

(** The [for] loop of [execute_task], from the action of index [i] on.  The
    step number shown is one more than the index.  An exception raised by a
    display or log call, or by [execute_action], leaves the loop; the task
    keeps the results appended so far. *)
Fixpoint run_actions (i : nat) (acts : list WebAction) (task : AutomationTask)
  (st : State) : option exn * AutomationTask * State :=
  match acts with
  | [] => (None, task, st)
  | action :: rest =>
      match emit (PrintStep (S i) action) with
      | Some e => (Some e, task, st)
      | None =>
          match execute_action w action st with
          | (Raise e, st') => (Some e, task, st')
          | (Ok result, st') =>
              let task := append_result result task in
              match emit_all (result_outputs (S i) result) with
              | Some e => (Some e, task, st')
              | None => run_actions (S i) rest task (log_call (AsyncioSleep 1000) st')
              end
          end
      end
  end.

(** The [try] block of [execute_task]: the exception that left it, if any,
    with the task and the controller as they were left. *)
Definition attempt_task (task : AutomationTask) (st : State)
  : option exn * AutomationTask * State :=
  let task := set_status RUNNING task in
  match emit_all [LogTaskStarted (id task) (Commands.prompt task);
                  PrintProcessing (Commands.prompt task)] with
  | Some e => (Some e, task, st)
  | None =>
      match page_context st with
      | (Raise e, st) => (Some e, task, st)
      | (Ok (current_url, page_content), st) =>
          match generate_web_actions (BrowserController.enum_contains w)
                  (completion w (trace st) (Commands.prompt task)
                     current_url page_content) with
          | Raise e => (Some e, task, st)
          | Ok acts =>
              let task := set_actions acts task in
              match emit_all (planned 1 acts) with
              | Some e => (Some e, task, st)
              | None =>
                  match run_actions 0 acts task st with
                  | (Some e, task, st) => (Some e, task, st)
                  | (None, task, st) =>
                      (None, set_status (final_status (results task)) task, st)
                  end
              end
          end
      end
  end.

(** [execute_task].  The handler shows and logs the message of the
    exception before it appends the failed result: when one of these two
    calls raises, the exception leaves [execute_task] and no task is
    returned. *)
Definition execute_task (seconds : Z) (uuid_hex : string) (prompt : string)
  (st : State) : Exc AutomationTask * State :=
  let task := {| id := _generate_task_id seconds uuid_hex; prompt := prompt;
                 actions := []; results := []; status := PENDING |} in
  match attempt_task task st with
  | (None, task, st) => (Ok task, st)
  | (Some e, task, st) =>
      match emit_all [PrintTaskFailed (str_exn e);
                      LogTaskError (id task) (str_exn e)] with
      | Some raised => (Raise raised, st)
      | None => (Ok (task_failed e task), st)
      end
  end.

End Parser.

End Reporting.

End Logged.

(** * Worked runs *)

Module Runs.
Import Commands LLMClient BrowserController CommandParser.

Definition action (t : ActionType) : WebAction :=
  {| type := t; selector := None; text := None; url := None; wait_time := None;
     scroll_direction := None; extract_type := None |}.

(** A driver on which every operation fails with its own message *)
Definition failing_driver (_ : Trace) (c : Call) : Exc PyVal :=
  Raise (Exn DriverError
           match c with
           | WaitForSelector _ _ => "Timeout 7000ms exceeded."
           | GetByTextClick _ true _ => "no exact text"
           | GetByTextClick _ false _ => "no partial text"
           | LocatorFirstClick _ _ => "no xpath match"
           | GetByRoleClick _ _ _ _ => "no such button"
           | _ => "driver failure"
           end).

Definition world (driver : Trace -> Call -> Exc PyVal) (reply : Reply) : World :=
  {| enum_contains := NonMemberIsFalse;
     respond := driver;
     page_url := fun _ => "https://example.com/";
     timestamp := fun _ => "2024-01-02_03-04-05";
     completion := fun _ _ _ _ => reply |}.

(** A driver on which every operation succeeds and returns nothing *)
Definition obliging_driver (_ : Trace) (_ : Call) : Exc PyVal := Ok VNone.

(** A driver that fails only when asked to close the browser *)
Definition browser_stuck_driver (_ : Trace) (c : Call) : Exc PyVal :=
  match c with
  | BrowserClose => Raise (Exn DriverError "browser is stuck")
  | _ => Ok VNone
  end.

(** A driver on which only the button role matches *)
Definition button_only_driver (_ : Trace) (c : Call) : Exc PyVal :=
  match c with
  | GetByRoleClick _ _ _ _ => Ok VNone
  | _ => Raise (Exn DriverError "no match")
  end.

Definition ready : State :=
  {| playwright := VHandle 0; browser := VHandle 1; page := VHandle 2; trace := [] |}.

Definition navigate_data : ActionData :=
  {| d_type := Some "navigate"; d_selector := None; d_text := None;
     d_url := Some "https://example.com"; d_wait_time := None;
     d_scroll_direction := None; d_extract_type := None |}.

Definition hover_data : ActionData :=
  {| d_type := Some "hover"; d_selector := Some "#menu"; d_text := None;
     d_url := None; d_wait_time := None;
     d_scroll_direction := None; d_extract_type := None |}.

Definition scroll_left_data : ActionData :=
  {| d_type := Some "scroll"; d_selector := None; d_text := None;
     d_url := None; d_wait_time := None;
     d_scroll_direction := Some "left"; d_extract_type := None |}.


Definition click_blank_data : ActionData :=
  {| d_type := Some "click"; d_selector := None; d_text := None;
     d_url := None; d_wait_time := None;
     d_scroll_direction := None; d_extract_type := None |}.


Definition screenshot_data : ActionData :=
  {| d_type := Some "screenshot"; d_selector := None; d_text := None;
     d_url := None; d_wait_time := None;
     d_scroll_direction := None; d_extract_type := None |}.

Definition scroll_data : ActionData :=
  {| d_type := Some "scroll"; d_selector := None; d_text := None;
     d_url := None; d_wait_time := None;
     d_scroll_direction := None; d_extract_type := None |}.

Definition extract_data : ActionData :=
  {| d_type := Some "extract"; d_selector := None; d_text := None;
     d_url := None; d_wait_time := None;
     d_scroll_direction := None; d_extract_type := None |}.


(** A driver on which the browser cannot be launched *)
Definition launch_fails (_ : Trace) (c : Call) : Exc PyVal :=
  match c with
  | ChromiumLaunch _ _ => Raise (Exn DriverError "executable not found")
  | PlaywrightStart => Ok (VHandle 0)
  | _ => Ok VNone
  end.



Definition navigate_example : WebAction :=
  {| type := NAVIGATE; selector := None; text := None;
     url := Some "https://example.com"; wait_time := None;
     scroll_direction := None; extract_type := None |}.

Definition wait_for (t : option Z) : WebAction :=
  {| type := WAIT; selector := None; text := None; url := None; wait_time := t;
     scroll_direction := None; extract_type := None |}.

(** A driver on which the button labelled Dismiss is found but cannot be
    clicked, because another element covers it.  Nothing matches the label
    as a selector or as a path; the attempts by text and by role find the
    button, and their failure quotes the element, whose title is the text
    [/close] in brackets. *)
Definition covered_button_driver (_ : Trace) (c : Call) : Exc PyVal :=
  match c with
  | WaitForSelector _ _ => Raise (Exn DriverError "Timeout 7000ms exceeded.")
  | GetByTextClick _ _ _ | GetByRoleClick _ _ _ _ =>
      Raise (Exn DriverError
               "Timeout 5000ms exceeded. <button title='[/close]'>Dismiss</button> is covered by another element")
  | LocatorFirstClick _ _ => Raise (Exn DriverError "no xpath match")
  | _ => Ok VNone
  end.

Definition dismiss_data : ActionData :=
  {| d_type := Some "click"; d_selector := Some "Dismiss"; d_text := None;
     d_url := None; d_wait_time := None;
     d_scroll_direction := None; d_extract_type := None |}.

Definition dismiss : WebAction :=
  {| type := CLICK; selector := Some "Dismiss"; text := None; url := None;
     wait_time := None; scroll_direction := None; extract_type := None |}.

(** What rendering raises on a text that holds the closing tag [/close]
    in brackets, which no open tag precedes.  The message is the
    renderer's, without the position it names. *)
Definition markup_error : exn :=
  Exn MarkupError "closing tag '[/close]' doesn't match any open tag".

Definition render_text (text : string) : option exn :=
  if PyStr.contains "[/close]" text then Some markup_error else None.

Definition render_optional_text (text : option string) : option exn :=
  match text with Some t => render_text t | None => None end.

Definition render_action (a : WebAction) : option exn :=
  if existsb (fun t => bool_decide (is_Some (render_optional_text t)))
       [selector a; text a; url a]
  then Some markup_error else None.

(** A console and a log handler that render what the calls interpolate.
    The description of a successful result is taken to render: in the runs
    below it is that of a screenshot. *)
Definition rendering_console (o : Logged.Output) : option exn :=
  match o with
  | Logged.LogInitializeFailed e | Logged.LogActionError _ e
  | Logged.LogPageContentFailed e | Logged.LogCloseError e
  | Logged.LogGenerationError e => render_text (str_exn e)
  | Logged.LogJsonError detail => render_text detail
  | Logged.LogSkipping a | Logged.PrintPlanned _ a | Logged.PrintStep _ a =>
      render_action a
  | Logged.LogTaskStarted _ prompt | Logged.PrintProcessing prompt => render_text prompt
  | Logged.PrintSuccess _ => None
  | Logged.PrintScreenshot path => render_text path
  | Logged.PrintFailed error | Logged.LogActionFailed _ error => render_optional_text error
  | Logged.PrintTaskFailed error_msg | Logged.LogTaskError _ error_msg =>
      render_text error_msg
  end.

(** The same console under a log level above the error level: no log call
    reaches the handler, the console still renders what is printed. *)
Definition printing_console (o : Logged.Output) : option exn :=
  match o with
  | Logged.PrintProcessing _ | Logged.PrintPlanned _ _ | Logged.PrintStep _ _
  | Logged.PrintSuccess _ | Logged.PrintScreenshot _ | Logged.PrintFailed _
  | Logged.PrintTaskFailed _ => rendering_console o
  | _ => None
  end.

(** A console and a log handler that accept every text *)
Definition accepting_console (_ : Logged.Output) : option exn := None.

End Runs.

(** * Properties *)

Import Commands LLMClient BrowserController CommandParser Runs.

(** ** Configuration *)


Lemma int_of_str_cases (s : string) :
  match PyStr.int_of_str s with
  | Ok z => PyStr.parse_int s = Some z
  | Raise e => PyStr.parse_int s = None /\ exn_class e = ValueError
  end.
Proof.
  unfold PyStr.int_of_str, PyStr.parse_int.
  destruct (PyStr.read_int s); cbn; auto.
Qed.





Lemma bool_decide_is_Some {A} (o : option A) :
  bool_decide (is_Some o) = match o with Some _ => true | None => false end.
Proof.
  destruct o.
  - apply bool_decide_eq_true_2. eauto.
  - apply bool_decide_eq_false_2. intros [? ?]. discriminate.
Qed.

(** [int] skips the white space of its own: a value padded with the
    separators FS and US is no integer literal, though [str.strip] would
    drop them, while padding by a no-break space is skipped. *)
Lemma int_white_space :
  PyStr.strip (String (ascii_of_nat 28) "12" +:+ String (ascii_of_nat 31) "") = "12"
  /\ Config.from_env
       {[ "BROWSER_TIMEOUT" := String (ascii_of_nat 28) "12" +:+ String (ascii_of_nat 31) "" ]}
     = Raise (Exn ValueError "invalid literal for int() with base 10: '\x1c12\x1f'")
  /\ PyStr.parse_int (String (ascii_of_nat 160) " 12 ") = Some 12
  /\ PyStr.parse_int " +1_000 " = Some 1000
  /\ PyStr.parse_int "1__000" = None
  /\ PyStr.parse_int "12 3" = None.
Proof. split_and!; vm_compute; reflexivity. Qed.

Lemma parse_default_timeout : PyStr.parse_int "30000" = Some 30000.
Proof. vm_compute. reflexivity. Qed.
Lemma parse_default_width : PyStr.parse_int "1920" = Some 1920.
Proof. vm_compute. reflexivity. Qed.
Lemma parse_default_height : PyStr.parse_int "1080" = Some 1080.
Proof. vm_compute. reflexivity. Qed.

(** The converse: [from_env] returns exactly when no numeric setting is
    rejected by [int]. *)
Lemma from_env_returns_iff (env : Config.Environ) :
  is_ok (Config.from_env env) = Config.numeric_settings_ok env.
Proof.
  unfold Config.numeric_settings_ok, Config.from_env, Config.getenv_default.
  cbn [forallb].
  destruct (env !! "BROWSER_TIMEOUT") as [t|];
    destruct (env !! "VIEWPORT_WIDTH") as [wd|];
    destruct (env !! "VIEWPORT_HEIGHT") as [h|];
    rewrite ?bool_decide_is_Some;
    repeat match goal with
      | |- context [PyStr.int_of_str ?s] =>
          let H := fresh "H" in
          pose proof (int_of_str_cases s) as H;
          destruct (PyStr.int_of_str s);
          [ | destruct H as [H _] ];
          rewrite ?parse_default_timeout, ?parse_default_width,
            ?parse_default_height in H;
          try discriminate H;
          rewrite ?H
      end; reflexivity.
Qed.

(** ** Plan validation *)

(** The required-field table, read off per action type. *)
Definition passes_validation (a : WebAction) : bool :=
  match type a with
  | NAVIGATE => truthy_str (url a)
  | CLICK => truthy_str (selector a)
  | TYPE => truthy_str (selector a) && truthy_str (text a)
  | SCROLL => bool_decide (is_Some (scroll_direction a))
  | WAIT => true
  | SCREENSHOT => true
  | EXTRACT => bool_decide (is_Some (extract_type a))
  end.

(** An action on which the membership test on an enumeration meets [None] *)
Definition tests_absent_member (a : WebAction) : bool :=
  match type a with
  | SCROLL => bool_decide (scroll_direction a = None)
  | EXTRACT => bool_decide (extract_type a = None)
  | _ => false
  end.

Lemma is_valid_action_lenient (a : WebAction) :
  _is_valid_action NonMemberIsFalse a = Ok (passes_validation a).
Proof.
  destruct a as [t sel txt u wt dir ext].
  unfold _is_valid_action, passes_validation, enum_in; cbn.
  destruct t; cbn;
    repeat match goal with
      | |- context [truthy_str ?o] => destruct (truthy_str o)
      end; cbn; try reflexivity.
  - destruct dir; reflexivity.
  - destruct ext; reflexivity.
Qed.

Lemma is_valid_action_strict (a : WebAction) :
  tests_absent_member a = false ->
  _is_valid_action NonMemberRaises a = Ok (passes_validation a).
Proof.
  destruct a as [t sel txt u wt dir ext].
  unfold _is_valid_action, passes_validation, tests_absent_member, enum_in; cbn.
  destruct t; cbn; intro H;
    repeat match goal with
      | |- context [truthy_str ?o] => destruct (truthy_str o)
      end; cbn; try reflexivity.
  - destruct dir; [reflexivity | discriminate].
  - destruct ext; [reflexivity | discriminate].
Qed.

Lemma is_valid_action_sound (ec : EnumContains) (a : WebAction) (b : bool) :
  _is_valid_action ec a = Ok b -> b = passes_validation a.
Proof.
  destruct ec.
  - destruct (tests_absent_member a) eqn:Habs.
    + destruct a as [t sel txt u wt dir ext].
      unfold _is_valid_action, passes_validation, tests_absent_member, enum_in in *.
      cbn in *.
      destruct t; try discriminate; cbn.
      * apply bool_decide_eq_true in Habs. subst dir. discriminate.
      * apply bool_decide_eq_true in Habs. subst ext. discriminate.
    + rewrite (is_valid_action_strict a Habs). congruence.
  - rewrite is_valid_action_lenient. congruence.
Qed.

(** The validation loop keeps, in order, exactly the actions that pass. *)
Lemma validate_loop_lenient (acts acc : list WebAction) :
  validate_loop NonMemberIsFalse acts acc
  = Ok (acc ++ List.filter passes_validation acts)%list.
Proof.
  revert acc. induction acts as [|a acts IH]; intro acc; cbn [validate_loop List.filter].
  - rewrite app_nil_r. reflexivity.
  - rewrite is_valid_action_lenient.
    destruct (passes_validation a); rewrite IH.
    + rewrite <- app_assoc. reflexivity.
    + reflexivity.
Qed.

Lemma validate_loop_sound (ec : EnumContains) (acts acc valid : list WebAction) :
  validate_loop ec acts acc = Ok valid ->
  valid = (acc ++ List.filter passes_validation acts)%list.
Proof.
  revert acc. induction acts as [|a acts IH]; intro acc; cbn [validate_loop List.filter].
  - rewrite app_nil_r. congruence.
  - destruct (_is_valid_action ec a) as [b|e] eqn:Hv; [|discriminate].
    apply is_valid_action_sound in Hv. subst b.
    destruct (passes_validation a); intro H; apply IH in H; subst valid.
    + rewrite <- app_assoc. reflexivity.
    + reflexivity.
Qed.

(** Every plan [generate_web_actions] returns holds only actions that pass
    validation, whichever way the interpreter tests enumeration membership. *)
Lemma generated_plan_passes (ec : EnumContains) (reply : Reply) (plan : list WebAction) :
  generate_web_actions ec reply = Ok plan ->
  exists acts, plan = List.filter passes_validation acts
               /\ Forall (fun a => passes_validation a = true) plan.
Proof.
  destruct reply as [e| |detail|items]; cbn; try discriminate.
  destruct (construct_all items) as [acts|e]; [|discriminate].
  unfold _validate_actions.
  destruct (validate_loop ec acts []) as [valid|e] eqn:Hv; [|discriminate].
  intro H. injection H as <-.
  apply validate_loop_sound in Hv. cbn in Hv. subst valid.
  exists acts. split; [reflexivity |].
  apply List.Forall_forall. intros a Ha. apply List.filter_In in Ha. tauto.
Qed.

(** An element whose [type] is not one of the seven tags makes the
    construction of the whole list raise. *)
Lemma construct_all_unknown_type (items : list ActionData) (d : ActionData) (tag : string) :
  In d items -> d_type d = Some tag -> ActionType_of_value tag = None ->
  exists e, construct_all items = Raise e.
Proof.
  intros Hin Htag Hunknown.
  induction items as [|d0 items IH]; [destruct Hin |].
  cbn [construct_all].
  destruct (WebAction_construct d0) as [a0|e0] eqn:Hc; [|eauto].
  destruct Hin as [-> | Hin].
  - unfold WebAction_construct in Hc. rewrite Htag, Hunknown in Hc. discriminate.
  - destruct (IH Hin) as [e He]. rewrite He. eauto.
Qed.

Lemma generate_unknown_type_fails (ec : EnumContains) (items : list ActionData)
  (d : ActionData) (tag : string) :
  In d items -> d_type d = Some tag -> ActionType_of_value tag = None ->
  exists e, generate_web_actions ec (Decoded items) = Raise e.
Proof.
  intros Hin Htag Hunknown.
  destruct (construct_all_unknown_type items d tag Hin Htag Hunknown) as [e He].
  cbn. rewrite He. unfold generation_failed. eauto.
Qed.

(** At the failing input of C5: a reply holding a well-formed navigate action
    followed by an action of unknown type, and one holding a scroll action
    whose direction is outside the enumeration.  The constructor of the first
    malformed element raises, the general handler turns that into the
    failure of the whole generation, and the navigate action is lost with
    it. *)
Theorem malformed_entry_fails_whole_plan (ec : EnumContains) :
  generate_web_actions ec (Decoded [navigate_data; hover_data])
  = Raise (Exn ValueError "Failed to generate actions: validation error for WebAction")
  /\ generate_web_actions ec (Decoded [navigate_data; scroll_left_data])
  = Raise (Exn ValueError "Failed to generate actions: validation error for WebAction")
  /\ generate_web_actions ec (Decoded [navigate_data]) = Ok [navigate_example].
Proof. destruct ec; split_and!; vm_compute; reflexivity. Qed.

(** ** Reasoning about controller computations *)

Ltac unfold_m :=
  unfold bind, try_except, ret, raise, get, modify, call, sleep in *.

(** What a computation leaves untouched: the three handles. *)
Definition same_handles (st st' : State) : Prop :=
  playwright st' = playwright st /\ browser st' = browser st /\ page st' = page st.

Definition frames {A} (m : M A) : Prop := forall st, same_handles st (snd (m st)).

Lemma same_handles_refl st : same_handles st st.
Proof. repeat split. Qed.

Lemma same_handles_trans st1 st2 st3 :
  same_handles st1 st2 -> same_handles st2 st3 -> same_handles st1 st3.
Proof. unfold same_handles. intros (?&?&?) (?&?&?). split_and!; congruence. Qed.

Create HintDb frames discriminated.

Lemma frames_ret {A} (a : A) : frames (ret a).
Proof. intro st. apply same_handles_refl. Qed.

Lemma frames_raise {A} (e : exn) : frames (@raise A e).
Proof. intro st. apply same_handles_refl. Qed.

Lemma frames_get : frames get.
Proof. intro st. apply same_handles_refl. Qed.

Lemma frames_call w c : frames (call w c).
Proof. intro st. repeat split. Qed.

Lemma frames_sleep ms : frames (sleep ms).
Proof. intro st. repeat split. Qed.

Lemma frames_bind {A B} (m : M A) (k : A -> M B) :
  frames m -> (forall a, frames (k a)) -> frames (bind m k).
Proof.
  intros Hm Hk st. unfold bind. specialize (Hm st).
  destruct (m st) as [[a|e] st1]; cbn in *; [|assumption].
  eapply same_handles_trans; [eassumption | apply Hk].
Qed.

Lemma frames_try {A} (body : M A) (handler : exn -> M A) :
  frames body -> (forall e, frames (handler e)) -> frames (try_except body handler).
Proof.
  intros Hb Hh st. unfold try_except. specialize (Hb st).
  destruct (body st) as [[a|e] st1]; cbn in *; [assumption|].
  eapply same_handles_trans; [eassumption | apply Hh].
Qed.

#[local] Hint Resolve frames_ret frames_raise frames_get frames_call frames_sleep : frames.

Ltac frames_step :=
  match goal with
  | |- forall _, _ => intro
  | |- frames (bind _ _) => apply frames_bind
  | |- frames (try_except _ _) => apply frames_try
  | |- frames (if ?b then _ else _) => destruct b
  | |- frames (let '(_, _) := ?p in _) => destruct p
  | |- frames (match ?x with _ => _ end) => destruct x
  | |- frames _ => solve [auto with frames]
  end.

Ltac prove_frames := repeat frames_step.

Lemma frames_dispatch w (action : WebAction) : frames (dispatch w action).
Proof.
  unfold dispatch, _navigate, _click, click_verbatim, click_fallbacks, click_text,
    click_xpath, click_role, _type, _scroll, _wait, _screenshot, _extract.
  prove_frames.
Qed.

Lemma frames_execute_action w (action : WebAction) : frames (execute_action w action).
Proof.
  unfold execute_action. apply frames_bind; [apply frames_get |].
  intro st. destruct (negb (truthy (page st))); [apply frames_raise |].
  apply frames_try; [apply frames_dispatch | intro; apply frames_ret].
Qed.

(** ** Dispatch *)

(** [execute_action] with its log call: without a page it raises the
    not-initialised error and does nothing else; with a page it returns the
    result of the sub-operation, or, when the sub-operation raises, logs the
    error and returns a failed result carrying its text.  When that log call
    raises, its exception leaves [execute_action]. *)
Lemma logged_execute_action_outcomes (emit : Logged.Output -> option exn) (w : World)
  (action : WebAction) (st : State) :
  Logged.execute_action emit w action st
  = if truthy (page st) then
      match dispatch w action st with
      | (Ok r, st') => (Ok r, st')
      | (Raise e, st') =>
          match emit (Logged.LogActionError (type action) e) with
          | None => (Ok (failed (str_exn e)), st')
          | Some raised => (Raise raised, st')
          end
      end
    else (Raise (Exn RuntimeError "Browser not initialized"), st).
Proof.
  unfold Logged.execute_action, Logged.announce, bind, get, try_except, raise, ret.
  destruct (truthy (page st)); cbn [negb]; [| reflexivity].
  destruct (dispatch w action st) as [[r|e] st']; [reflexivity |].
  destruct (emit _); reflexivity.
Qed.

(** C3, evaluated where the code departs from it.  The controller is
    initialised and the click fails on every attempt.  On a console and log
    that accept the error text the failure is wrapped into a failed result,
    as the claim says.  The error text quotes the element found, though, and
    that text holds a closing tag: logging it raises, and the exception of
    the log call, which is not the not-initialised error, leaves
    [execute_action]. *)
Theorem log_failure_leaves_execute_action :
  let w := world covered_button_driver NoContent in
  let attempts :=
    {| playwright := VHandle 0; browser := VHandle 1; page := VHandle 2;
       trace := [WaitForSelector (Some "Dismiss") 7000;
                 GetByTextClick "Dismiss" true 5000;
                 GetByTextClick "Dismiss" false 5000;
                 LocatorFirstClick "xpath=Dismiss" 5000;
                 GetByRoleClick "button" "Dismiss" true 5000] |} in
  Logged.execute_action rendering_console w dismiss ready
  = (Raise markup_error, attempts)
  /\ markup_error <> Exn RuntimeError "Browser not initialized"
  /\ exists message,
       Logged.execute_action accepting_console w dismiss ready
       = (Ok (failed message), attempts)
       /\ PyStr.contains "[/close]" message = true.
Proof.
  cbn zeta. split_and!.
  - vm_compute. reflexivity.
  - discriminate.
  - eexists. split; [vm_compute; reflexivity | vm_compute; reflexivity].
Qed.

Lemma small_wait_converts : (float_overflow_bound <=? Z.abs 1000) = false.
Proof. vm_compute. reflexivity. Qed.

(** C10: a wait action whose [wait_time] is 0 pauses for the default 1000
    milliseconds and reports [wait_time] 1000, exactly as a wait action
    without [wait_time] does. *)
Theorem wait_zero_runs_as_absent (w : World) (a : WebAction) (st : State) :
  type a = WAIT -> wait_time a = Some 0 -> truthy (page st) = true ->
  execute_action w a st
  = (Ok (succeeded {[ "wait_time" := VInt 1000 ]} None), log_call (AsyncioSleep 1000) st)
  /\ forall a', type a' = WAIT -> wait_time a' = None ->
                execute_action w a' st = execute_action w a st.
Proof.
  intros Ht Hz Hp.
  assert (Hrun : forall b, type b = WAIT -> truthy_int (wait_time b) = false ->
            execute_action w b st
            = (Ok (succeeded {[ "wait_time" := VInt 1000 ]} None),
               log_call (AsyncioSleep 1000) st)).
  { intros b Hb Hf.
    unfold execute_action, bind, get, try_except. rewrite Hp. cbn [negb].
    unfold dispatch. rewrite Hb, Hf. unfold _wait, bind.
    rewrite small_wait_converts. reflexivity. }
  split.
  - apply Hrun; [exact Ht | rewrite Hz; reflexivity].
  - intros a' Ht' Hn. rewrite (Hrun a' Ht'), (Hrun a Ht); try reflexivity.
    + rewrite Hz. reflexivity.
    + rewrite Hn. reflexivity.
Qed.

Lemma wait_zero_runs_as_absent_witness :
  execute_action (world obliging_driver NoContent) (wait_for (Some 0)) ready
  = (Ok (succeeded {[ "wait_time" := VInt 1000 ]} None), log_call (AsyncioSleep 1000) ready)
  /\ execute_action (world obliging_driver NoContent) (wait_for None) ready
     = execute_action (world obliging_driver NoContent) (wait_for (Some 0)) ready.
Proof.
  destruct (wait_zero_runs_as_absent (world obliging_driver NoContent)
              (wait_for (Some 0)) ready) as [Hrun Hsame];
    [reflexivity | reflexivity | reflexivity |].
  split; [exact Hrun |].
  apply Hsame; reflexivity.
Defined.

(** ** Teardown *)





(** The teardown on three controllers: none initialised, one whose browser
    does not close, and one on which every step succeeds; and on a
    controller that holds only the driver handle. *)
Lemma close_worked_runs :
  Logged.close accepting_console (world obliging_driver NoContent) init = (Ok tt, init)
  /\ Logged.close accepting_console (world browser_stuck_driver NoContent) ready
     = (Raise (Exn DriverError "browser is stuck"),
        {| playwright := VHandle 0; browser := VHandle 1; page := VNone;
           trace := [PageClose; BrowserClose] |})
  /\ Logged.close accepting_console (world obliging_driver NoContent) ready
     = (Ok tt, {| playwright := VNone; browser := VNone; page := VNone;
                  trace := [PageClose; BrowserClose; PlaywrightStop] |})
  /\ Logged.close accepting_console (world failing_driver NoContent)
       {| playwright := VHandle 0; browser := VNone; page := VNone; trace := [] |}
     = (Raise (Exn DriverError "driver failure"),
        {| playwright := VHandle 0; browser := VNone; page := VNone;
           trace := [PlaywrightStop] |}).
Proof. split_and!; vm_compute; reflexivity. Qed.

(** ** Start-up *)

(** When the five start-up operations succeed, [initialize] stores the three
    handles the driver returned, in the order driver, browser, page. *)
Lemma initialize_stores_handles (w : World) (config : Config.Config) (st : State)
  (pw br pg v4 v5 : PyVal) :
  let c1 := PlaywrightStart in
  let c2 := ChromiumLaunch (Config.headless (Config.browser config)) launch_args in
  let c3 := NewPage in
  let c4 := SetViewportSize (Config.viewport_width (Config.browser config))
                            (Config.viewport_height (Config.browser config)) in
  let c5 := SetDefaultTimeout (Config.timeout (Config.browser config)) in
  respond w (trace st) c1 = Ok pw ->
  respond w (trace st ++ [c1])%list c2 = Ok br ->
  respond w ((trace st ++ [c1]) ++ [c2])%list c3 = Ok pg ->
  respond w (((trace st ++ [c1]) ++ [c2]) ++ [c3])%list c4 = Ok v4 ->
  respond w ((((trace st ++ [c1]) ++ [c2]) ++ [c3]) ++ [c4])%list c5 = Ok v5 ->
  initialize w config st
  = (Ok tt, {| playwright := pw; browser := br; page := pg;
               trace := (((((trace st ++ [c1]) ++ [c2]) ++ [c3]) ++ [c4]) ++ [c5])%list |}).
Proof.
  intros c1 c2 c3 c4 c5 H1 H2 H3 H4 H5.
  unfold initialize. unfold_m. fold c1 c2 c3 c4 c5.
  rewrite H1. cbn [trace log_call set_playwright playwright browser page].
  rewrite H2. cbn [trace log_call set_playwright set_browser playwright browser page].
  rewrite H3.
  cbn [trace log_call set_playwright set_browser set_page playwright browser page].
  rewrite H4.
  cbn [trace log_call set_playwright set_browser set_page playwright browser page].
  rewrite H5. reflexivity.
Qed.

(** ** Click fallbacks *)

Definition with_trace (tr : Trace) (st : State) : State :=
  {| playwright := playwright st; browser := browser st; page := page st; trace := tr |}.

(** The four fallback attempts for a selector without engine prefix, in the
    order of the specification, each with the label its failure is reported
    under. *)
Definition fallback_attempts (selector : string) : list (Call * string) :=
  let text_candidate :=
    PyStr.strip_chars [PyStr.dquote; PyStr.squote] (PyStr.strip selector) in
  [ (GetByTextClick text_candidate true 5000, "text exact failed: ");
    (GetByTextClick text_candidate false 5000, "text partial failed: ");
    (LocatorFirstClick ("xpath=" +:+ selector) 5000, "xpath failed: ");
    (GetByRoleClick "button" selector true 5000, "role button exact failed: ") ].

(** Trying attempts one after the other until one succeeds: whether one
    did, the failure descriptions gathered on the way, and the trace. *)
Fixpoint try_in_order (w : World) (tr : Trace) (attempts : list (Call * string))
  : bool * list string * Trace :=
  match attempts with
  | [] => (false, [], tr)
  | (c, label) :: rest =>
      match respond w tr c with
      | Ok _ => (true, [], (tr ++ [c])%list)
      | Raise e =>
          let '(clicked, errors, tr') := try_in_order w (tr ++ [c])%list rest in
          (clicked, (label +:+ str_exn e) :: errors, tr')
      end
  end.

Definition click_failure (errors : list string) : exn :=
  Exn RuntimeError ("Failed to click element with provided selector and fallbacks. "
                    +:+ PyStr.join "; " errors).

Lemma no_prefix_not_xpath (selector : string) :
  PyStr.startswith_any ["text="; "xpath="; "css="] selector = false ->
  PyStr.startswith "xpath=" selector = false.
Proof.
  unfold PyStr.startswith_any. cbn [existsb]. intro H.
  apply orb_false_elim in H as [_ H]. apply orb_false_elim in H as [H _]. exact H.
Qed.

(** The handler of [_click] is the in-order trial of the four attempts. *)
Lemma click_refines_try_in_order (w : World) (sel : string) (st st0 : State) (e0 : exn) :
  PyStr.startswith_any ["text="; "xpath="; "css="] sel = false ->
  click_verbatim w (Some sel) st = (Raise e0, st0) ->
  _click w (Some sel) st
  = match try_in_order w (trace st0) (fallback_attempts sel) with
    | (true, _, tr) =>
        (Ok (succeeded {[ "selector" := VStr sel; "action" := VStr "clicked" ]} None),
         log_call (AsyncioSleep 1000) (with_trace tr st0))
    | (false, errors, tr) => (Raise (click_failure errors), with_trace tr st0)
    end.
Proof.
  intros Hprefix Hverbatim.
  pose proof (no_prefix_not_xpath sel Hprefix) as Hxpath.
  unfold _click, bind, try_except. rewrite Hverbatim.
  unfold click_fallbacks, click_text, click_xpath, click_role, bind, try_except.
  rewrite Hprefix. cbn [negb].
  unfold fallback_attempts. cbn [try_in_order].
  unfold call, ret, raise, sleep, modify.
  destruct st0 as [pw br pg tr].
  cbn [trace log_call playwright browser page].
  destruct (respond w tr _) as [v1|e1]; [reflexivity |].
  cbn [trace log_call playwright browser page].
  destruct (respond w (tr ++ [_])%list (GetByTextClick _ false _)) as [v2|e2];
    [reflexivity |].
  cbn [negb trace log_call playwright browser page]. rewrite Hxpath.
  destruct (respond w _ (LocatorFirstClick _ _)) as [v3|e3]; [reflexivity |].
  cbn [negb trace log_call playwright browser page].
  destruct (respond w _ (GetByRoleClick _ _ _ _)) as [v4|e4]; reflexivity.
Qed.

(** C2, as stated, fails on its last part: the failure of the selector as
    given is discarded.  Here every attempt fails with its own message and
    the message of the raised error holds the four fallback failures only. *)
Lemma click_error_omits_verbatim_failure :
  click_verbatim (world failing_driver NoContent) (Some "Sign in") ready
  = (Raise (Exn DriverError "Timeout 7000ms exceeded."),
     log_call (WaitForSelector (Some "Sign in") 7000) ready)
  /\ fst (_click (world failing_driver NoContent) (Some "Sign in") ready)
     = Raise (Exn RuntimeError
         "Failed to click element with provided selector and fallbacks. text exact failed: no exact text; text partial failed: no partial text; xpath failed: no xpath match; role button exact failed: no such button")
  /\ PyStr.contains "Timeout 7000ms exceeded."
       "Failed to click element with provided selector and fallbacks. text exact failed: no exact text; text partial failed: no partial text; xpath failed: no xpath match; role button exact failed: no such button"
     = false.
Proof. split_and!; vm_compute; reflexivity. Qed.

(** C2, amended: for a selector without engine prefix whose attempt as given
    fails, [_click] tries exact text, partial text, XPath and the button role
    in that order and stops at the first that succeeds; and when all four
    fail it raises an error whose message joins the four fallback failure
    descriptions, in that order.  The failure of the selector as given is
    not part of the message. *)
Theorem click_fallback_order (w : World) (sel : string) (st st0 : State) (e0 : exn) :
  PyStr.startswith_any ["text="; "xpath="; "css="] sel = false ->
  click_verbatim w (Some sel) st = (Raise e0, st0) ->
  let text_candidate :=
    PyStr.strip_chars [PyStr.dquote; PyStr.squote] (PyStr.strip sel) in
  let c1 := GetByTextClick text_candidate true 5000 in
  let c2 := GetByTextClick text_candidate false 5000 in
  let c3 := LocatorFirstClick ("xpath=" +:+ sel) 5000 in
  let c4 := GetByRoleClick "button" sel true 5000 in
  _click w (Some sel) st
  = match try_in_order w (trace st0)
            [(c1, "text exact failed: "); (c2, "text partial failed: ");
             (c3, "xpath failed: "); (c4, "role button exact failed: ")] with
    | (true, _, tr) =>
        (Ok (succeeded {[ "selector" := VStr sel; "action" := VStr "clicked" ]} None),
         log_call (AsyncioSleep 1000) (with_trace tr st0))
    | (false, errors, tr) => (Raise (click_failure errors), with_trace tr st0)
    end
  /\ forall e1 e2 e3 e4,
      respond w (trace st0) c1 = Raise e1 ->
      respond w (trace st0 ++ [c1])%list c2 = Raise e2 ->
      respond w (trace st0 ++ [c1; c2])%list c3 = Raise e3 ->
      respond w (trace st0 ++ [c1; c2; c3])%list c4 = Raise e4 ->
      _click w (Some sel) st
      = (Raise (Exn RuntimeError
                  ("Failed to click element with provided selector and fallbacks. "
                   +:+ PyStr.join "; "
                         ["text exact failed: " +:+ str_exn e1;
                          "text partial failed: " +:+ str_exn e2;
                          "xpath failed: " +:+ str_exn e3;
                          "role button exact failed: " +:+ str_exn e4])),
         with_trace (trace st0 ++ [c1; c2; c3; c4])%list st0).
Proof.
  intros Hprefix Hverbatim text_candidate c1 c2 c3 c4.
  pose proof (click_refines_try_in_order w sel st st0 e0 Hprefix Hverbatim) as Hrun.
  split; [exact Hrun |].
  intros e1 e2 e3 e4 H1 H2 H3 H4.
  rewrite Hrun. unfold fallback_attempts. fold text_candidate c1 c2 c3 c4.
  cbn [try_in_order]. rewrite H1.
  replace ((trace st0 ++ [c1]) ++ [c2])%list with (trace st0 ++ [c1; c2])%list
    by (rewrite <- app_assoc; reflexivity).
  rewrite H2.
  replace ((trace st0 ++ [c1; c2]) ++ [c3])%list with (trace st0 ++ [c1; c2; c3])%list
    by (rewrite <- app_assoc; reflexivity).
  rewrite H3.
  replace ((trace st0 ++ [c1; c2; c3]) ++ [c4])%list
    with (trace st0 ++ [c1; c2; c3; c4])%list
    by (rewrite <- app_assoc; reflexivity).
  rewrite H4. reflexivity.
Qed.

Lemma click_fallback_order_witness :
  _click (world button_only_driver NoContent) (Some " 'Sign in' ") ready
  = (Ok (succeeded {[ "selector" := VStr " 'Sign in' "; "action" := VStr "clicked" ]} None),
     with_trace
       [WaitForSelector (Some " 'Sign in' ") 7000;
        GetByTextClick "Sign in" true 5000;
        GetByTextClick "Sign in" false 5000;
        LocatorFirstClick "xpath= 'Sign in' " 5000;
        GetByRoleClick "button" " 'Sign in' " true 5000;
        AsyncioSleep 1000] ready)
  /\ _click (world failing_driver NoContent) (Some " 'Sign in' ") ready
     = (Raise (Exn RuntimeError
          "Failed to click element with provided selector and fallbacks. text exact failed: no exact text; text partial failed: no partial text; xpath failed: no xpath match; role button exact failed: no such button"),
        with_trace
          [WaitForSelector (Some " 'Sign in' ") 7000;
           GetByTextClick "Sign in" true 5000;
           GetByTextClick "Sign in" false 5000;
           LocatorFirstClick "xpath= 'Sign in' " 5000;
           GetByRoleClick "button" " 'Sign in' " true 5000] ready).
Proof.
  split.
  - destruct (click_fallback_order (world button_only_driver NoContent) " 'Sign in' " ready
                (log_call (WaitForSelector (Some " 'Sign in' ") 7000) ready)
                (Exn DriverError "no match")) as [Hrun _];
      [reflexivity | reflexivity |].
    rewrite Hrun. reflexivity.
  - destruct (click_fallback_order (world failing_driver NoContent) " 'Sign in' " ready
                (log_call (WaitForSelector (Some " 'Sign in' ") 7000) ready)
                (Exn DriverError "Timeout 7000ms exceeded.")) as [_ Hall];
      [reflexivity | reflexivity |].
    rewrite (Hall (Exn DriverError "no exact text") (Exn DriverError "no partial text")
               (Exn DriverError "no xpath match") (Exn DriverError "no such button"));
      reflexivity.
Defined.

(** ** Task status *)





(** The status rule as the specification words it, with the guard on a
    non-empty result list. *)
Definition status_with_guard (rs : list CommandResult) : TaskStatus :=
  if (successful_actions rs =? total_actions rs) && (0 <? total_actions rs) then COMPLETED
  else if 0 <? successful_actions rs then COMPLETED
  else FAILED.

Lemma final_status_guarded_when_nonempty (rs : list CommandResult) :
  rs <> [] -> final_status rs = status_with_guard rs.
Proof.
  intro Hne. unfold final_status, status_with_guard, total_actions.
  destruct rs as [|r rs]; [congruence|]. cbn [List.length].
  replace (0 <? Z.of_nat (S (List.length rs))) with true
    by (symmetry; apply Z.ltb_lt; lia).
  rewrite andb_true_r. reflexivity.
Qed.

Lemma empty_results_status :
  final_status [] = COMPLETED /\ status_with_guard [] = FAILED.
Proof. split; reflexivity. Qed.

(** C1, at its failing input: the reply is the empty plan (and, second, a
    plan whose only action is dropped by validation).  No action runs, no
    exception escapes, the result list stays empty, and the task ends
    completed where the claim says failed. *)
Theorem empty_plan_ends_completed :
  (let task := fst (execute_task (world obliging_driver (Decoded []))
                      1700000000 "9f1c2ab47d3e4f60a1b2c3d4e5f60718" "stay here" ready) in
   actions task = [] /\ results task = [] /\ status task = COMPLETED)
  /\ (let task := fst (execute_task (world obliging_driver (Decoded [click_blank_data]))
                         1700000000 "9f1c2ab47d3e4f60a1b2c3d4e5f60718" "click it" ready) in
      actions task = [] /\ results task = [] /\ status task = COMPLETED).
Proof. split; vm_compute; split_and!; reflexivity. Qed.

(** ** The execution loop *)

Lemma frames_page_context (w : World) : frames (page_context w).
Proof.
  unfold page_context, get_current_url, get_page_content. prove_frames.
Qed.

(** Reading the page context never raises: a failure to read the content is
    absorbed by [get_page_content]. *)
Lemma page_context_returns (w : World) (st : State) :
  exists current_url content st1,
    page_context w st = (Ok (current_url, content), st1).
Proof.
  unfold page_context, get_current_url, get_page_content. unfold_m.
  destruct (truthy (page st)) eqn:Hp; cbn [negb].
  - destruct (negb (String.eqb (page_url w (trace st)) "")); [|eauto].
    rewrite Hp. cbn [negb].
    destruct (respond w (trace st) PageContent) as [v|e]; eauto.
  - cbn. eauto.
Qed.

(** With a page set up, [execute_action] returns and leaves the handles as
    they are. *)
Lemma execute_action_initialized (w : World) (a : WebAction) (st : State) :
  truthy (page st) = true ->
  exists r st', execute_action w a st = (Ok r, st') /\ truthy (page st') = true.
Proof.
  intro Hp.
  pose proof (frames_execute_action w a st) as (_ & _ & Hpage).
  unfold execute_action, bind, get, try_except, ret in *. rewrite Hp in *.
  cbn [negb] in *.
  destruct (dispatch w a st) as [[r|e] st']; cbn [snd] in Hpage;
    eexists; eexists; (split; [reflexivity | rewrite Hpage; exact Hp]).
Qed.

(** The state in which the [i]-th action of a plan starts: each earlier
    action has run and has been followed by the one second pause. *)
Fixpoint state_before (w : World) (acts : list WebAction) (i : nat) (st : State) : State :=
  match i, acts with
  | S j, a :: rest =>
      state_before w rest j (log_call (AsyncioSleep 1000) (snd (execute_action w a st)))
  | _, _ => st
  end.

(** With a page set up the loop runs to the end of the plan, whatever the
    results are, and appends one result per action, in plan order. *)
Lemma run_actions_in_order (w : World) (acts : list WebAction) :
  forall (task : AutomationTask) (st : State),
    truthy (page st) = true ->
    exists rs st',
      run_actions w acts task st
      = (None,
         {| id := id task; prompt := prompt task; actions := actions task;
            results := (results task ++ rs)%list; status := status task |},
         st')
      /\ List.length rs = List.length acts
      /\ forall i a, acts !! i = Some a ->
           exists r, rs !! i = Some r
                     /\ fst (execute_action w a (state_before w acts i st)) = Ok r.
Proof.
  induction acts as [|a acts IH]; intros task st Hp.
  - exists [], st. cbn [run_actions]. rewrite app_nil_r.
    destruct task; split_and!; [reflexivity | reflexivity |].
    intros i a Hi. rewrite lookup_nil in Hi. discriminate.
  - destruct (execute_action_initialized w a st Hp) as (r & st1 & Hrun & Hp1).
    cbn [run_actions]. rewrite Hrun.
    destruct (IH (append_result r task) (log_call (AsyncioSleep 1000) st1) Hp1)
      as (rs & st' & Hloop & Hlen & Hnth).
    exists (r :: rs), st'. split_and!.
    + rewrite Hloop. cbn [append_result id prompt actions results status].
      rewrite <- app_assoc. reflexivity.
    + cbn [List.length]. rewrite Hlen. reflexivity.
    + intros [|i] a' Hi.
      * cbn in Hi. injection Hi as <-. exists r. split; [reflexivity |].
        cbn [state_before]. rewrite Hrun. reflexivity.
      * cbn in Hi. destruct (Hnth i a' Hi) as (r' & Hr' & Hexec).
        exists r'. split; [exact Hr' |].
        cbn [state_before]. rewrite Hrun. exact Hexec.
Qed.

(** *** On a console and log that accept every text *)

(** The functions with their display and log calls agree with the ones
    without when no such call raises. *)
Definition accepts_all (emit : Logged.Output -> option exn) : Prop :=
  forall o, emit o = None.

Lemma accepted_emit_all (emit : Logged.Output -> option exn) (os : list Logged.Output) :
  accepts_all emit -> Logged.emit_all emit os = None.
Proof.
  intro Hq. induction os as [|o os IH]; [reflexivity |].
  cbn [Logged.emit_all]. rewrite Hq. exact IH.
Qed.

Lemma accepted_execute_action (emit : Logged.Output -> option exn) (w : World)
  (a : WebAction) (st : State) :
  accepts_all emit -> Logged.execute_action emit w a st = execute_action w a st.
Proof.
  intro Hq. rewrite logged_execute_action_outcomes.
  unfold execute_action, bind, get, try_except, raise, ret.
  destruct (truthy (page st)); cbn [negb]; [| reflexivity].
  destruct (dispatch w a st) as [[r|e] st']; [reflexivity |].
  rewrite Hq. reflexivity.
Qed.

Lemma accepted_page_context (emit : Logged.Output -> option exn) (w : World) (st : State) :
  accepts_all emit -> Logged.page_context emit w st = page_context w st.
Proof.
  intro Hq.
  unfold Logged.page_context, page_context, Logged.get_page_content, get_page_content,
    get_current_url, Logged.announce.
  unfold_m.
  destruct (truthy (page st)) eqn:Hp; cbn [negb]; [| reflexivity].
  destruct (negb (String.eqb (page_url w (trace st)) "")); [| reflexivity].
  rewrite Hp. cbn [negb].
  destruct (respond w (trace st) PageContent) as [v|e]; [reflexivity |].
  rewrite Hq. reflexivity.
Qed.

Lemma accepted_validate_loop (emit : Logged.Output -> option exn) (ec : EnumContains)
  (acts : list WebAction) :
  accepts_all emit ->
  forall acc, Logged.validate_loop emit ec acts acc = validate_loop ec acts acc.
Proof.
  intro Hq. induction acts as [|a acts IH]; intro acc; [reflexivity |].
  cbn [Logged.validate_loop validate_loop].
  destruct (_is_valid_action ec a) as [[|]|e]; [apply IH | | reflexivity].
  rewrite Hq. apply IH.
Qed.

Lemma accepted_generate_web_actions (emit : Logged.Output -> option exn)
  (ec : EnumContains) (reply : Reply) :
  accepts_all emit ->
  Logged.generate_web_actions emit ec reply = generate_web_actions ec reply.
Proof.
  intro Hq.
  unfold Logged.generate_web_actions, generate_web_actions, Logged.generation_failed,
    generation_failed, Logged._validate_actions, _validate_actions.
  destruct reply as [e| |detail|items]; rewrite ?Hq; try reflexivity.
  destruct (construct_all items) as [acts|e]; rewrite ?Hq; [| reflexivity].
  rewrite (accepted_validate_loop emit ec acts Hq).
  destruct (validate_loop ec acts []); rewrite ?Hq; reflexivity.
Qed.

Lemma accepted_run_actions (emit : Logged.Output -> option exn) (w : World)
  (acts : list WebAction) :
  accepts_all emit ->
  forall i task st,
    Logged.run_actions emit w i acts task st = run_actions w acts task st.
Proof.
  intro Hq. induction acts as [|a acts IH]; intros i task st; [reflexivity |].
  cbn [Logged.run_actions run_actions].
  rewrite Hq, (accepted_execute_action emit w a st Hq).
  destruct (execute_action w a st) as [[r|e] st']; [| reflexivity].
  rewrite (accepted_emit_all emit _ Hq). apply IH.
Qed.

Lemma accepted_execute_task (emit : Logged.Output -> option exn) (w : World)
  (seconds : Z) (uuid_hex prompt : string) (st : State) :
  accepts_all emit ->
  Logged.execute_task emit w seconds uuid_hex prompt st
  = (Ok (fst (execute_task w seconds uuid_hex prompt st)),
     snd (execute_task w seconds uuid_hex prompt st)).
Proof.
  intro Hq. unfold Logged.execute_task, Logged.attempt_task, execute_task.
  rewrite (accepted_emit_all emit _ Hq), (accepted_page_context emit w st Hq).
  cbn [set_status Commands.id Commands.prompt].
  destruct (page_context w st) as [[[current_url content]|e] st1].
  2:{ rewrite (accepted_emit_all emit _ Hq). reflexivity. }
  rewrite (accepted_generate_web_actions emit _ _ Hq).
  destruct (generate_web_actions _ _) as [acts|e].
  2:{ rewrite (accepted_emit_all emit _ Hq). reflexivity. }
  rewrite (accepted_emit_all emit _ Hq), (accepted_run_actions emit w acts Hq).
  destruct (run_actions w acts _ st1) as [[[e|] task'] st']; [| reflexivity].
  rewrite (accepted_emit_all emit _ Hq). reflexivity.
Qed.

(** On a console and log that accept every text, and with a page set up
    and a plan [acts] returned by the client, the task holds the plan, and
    its results are one per action, in plan order: [results[i]] is what
    [execute_action] returned for [actions[i]], run in the state the first
    [i] actions left.  This holds whatever the earlier results were: a failed
    result does not end the loop. *)
Lemma accepted_results_follow_plan_order (emit : Logged.Output -> option exn) (w : World)
  (seconds : Z) (uuid_hex prompt : string)
  (st st1 : State) (current_url : string) (content : option PyVal)
  (acts : list WebAction) :
  accepts_all emit ->
  truthy (page st) = true ->
  page_context w st = (Ok (current_url, content), st1) ->
  generate_web_actions (enum_contains w)
    (completion w (trace st1) prompt current_url content) = Ok acts ->
  exists task st',
    Logged.execute_task emit w seconds uuid_hex prompt st = (Ok task, st')
    /\ actions task = acts
    /\ List.length (results task) = List.length acts
    /\ forall i a, acts !! i = Some a ->
         exists r, results task !! i = Some r
                   /\ fst (execute_action w a (state_before w acts i st1)) = Ok r.
Proof.
  intros Hq Hp Hctx Hplan.
  assert (Hp1 : truthy (page st1) = true).
  { pose proof (frames_page_context w st) as (_ & _ & Hpage).
    rewrite Hctx in Hpage. cbn [snd] in Hpage. rewrite Hpage. exact Hp. }
  rewrite (accepted_execute_task emit w seconds uuid_hex prompt st Hq).
  eexists. eexists. split; [reflexivity |].
  unfold execute_task. rewrite Hctx, Hplan.
  match goal with
  | |- context [run_actions w acts ?t st1] =>
      destruct (run_actions_in_order w acts t st1 Hp1) as (rs & st' & Hloop & Hlen & Hnth);
      rewrite Hloop
  end.
  cbn. split_and!; [reflexivity | exact Hlen | exact Hnth].
Qed.

(** C7, evaluated where the code departs from it.  The plan is a click
    followed by a screenshot, on an initialised controller; the click fails
    on every attempt.  On a console and log that accept the error text both
    actions are attempted and the task holds a failure followed by a
    success, as the claim says.  The error text quotes the element found,
    though, and that text holds a closing tag.  When the log handler renders
    it, the log call in the handler of [execute_action] raises; under a log
    level that keeps it from the handler, the failed result is appended and
    the line that shows its error raises.  Either way the loop ends there,
    the handler of [execute_task] raises on the same text, and no task is
    returned: the screenshot is never attempted. *)
Theorem failed_action_ends_the_task :
  let w := world covered_button_driver (Decoded [dismiss_data; screenshot_data]) in
  let run emit :=
    Logged.execute_task emit w 1700000000 "9f1c2ab47d3e4f60a1b2c3d4e5f60718"
      "dismiss the banner, then take a screenshot" ready in
  let click_attempts :=
    [PageContent;
     WaitForSelector (Some "Dismiss") 7000;
     GetByTextClick "Dismiss" true 5000;
     GetByTextClick "Dismiss" false 5000;
     LocatorFirstClick "xpath=Dismiss" 5000;
     GetByRoleClick "button" "Dismiss" true 5000] in
  (fst (run rendering_console) = Raise markup_error
   /\ trace (snd (run rendering_console)) = click_attempts)
  /\ (fst (run printing_console) = Raise markup_error
      /\ trace (snd (run printing_console)) = click_attempts)
  /\ exists task,
       fst (run accepting_console) = Ok task
       /\ List.map type (actions task) = [CLICK; SCREENSHOT]
       /\ List.map success (results task) = [false; true]
       /\ trace (snd (run accepting_console))
          = (click_attempts
             ++ [AsyncioSleep 1000;
                 PageScreenshot "screenshots/screenshot-2024-01-02_03-04-05.png" true;
                 AsyncioSleep 1000])%list.
Proof.
  cbn zeta. split_and!; try (vm_compute; reflexivity).
  eexists. split_and!; vm_compute; reflexivity.
Qed.

(** ** The shape of results *)

(** What a computation can return *)
Definition returns {A} (P : A -> Prop) (m : M A) : Prop :=
  forall st a st', m st = (Ok a, st') -> P a.

Lemma returns_ret {A} (P : A -> Prop) (a : A) : P a -> returns P (ret a).
Proof. intros Ha st a' st' H. injection H as <- _. exact Ha. Qed.

Lemma returns_raise {A} (P : A -> Prop) (e : exn) : returns P (raise e).
Proof. intros st a st' H. discriminate. Qed.

Lemma returns_bind {A B} (P : B -> Prop) (m : M A) (k : A -> M B) :
  (forall a, returns P (k a)) -> returns P (bind m k).
Proof.
  intros Hk st b st' H. unfold bind in H.
  destruct (m st) as [[a|e] st1]; [|discriminate].
  exact (Hk a st1 b st' H).
Qed.

Lemma returns_try {A} (P : A -> Prop) (body : M A) (handler : exn -> M A) :
  returns P body -> (forall e, returns P (handler e)) ->
  returns P (try_except body handler).
Proof.
  intros Hb Hh st a st' H. unfold try_except in H.
  destruct (body st) as [[a0|e] st1] eqn:Hbody.
  - injection H as <- <-. exact (Hb st a0 st1 Hbody).
  - exact (Hh e st1 a st' H).
Qed.

(** A successful result without error text; it names a saved image only
    when its action is a screenshot. *)
Definition success_of (t : ActionType) (r : CommandResult) : Prop :=
  success r = true /\ error r = None
  /\ (is_Some (screenshot r) -> t = SCREENSHOT).

Lemma succeeded_plain (t : ActionType) (d : gmap string PyVal) :
  success_of t (succeeded d None).
Proof. split_and!; [reflexivity | reflexivity |]. intros [? ?]. discriminate. Qed.

Ltac returns_step :=
  match goal with
  | |- forall _, _ => intro
  | |- returns _ (bind _ _) => apply returns_bind
  | |- returns _ (ret (succeeded _ None)) => apply returns_ret, succeeded_plain
  | |- returns _ (raise _) => apply returns_raise
  | |- returns _ (match ?x with _ => _ end) => destruct x
  end.

Lemma dispatch_returns_success (w : World) (a : WebAction) :
  returns (success_of (type a)) (dispatch w a).
Proof.
  unfold dispatch.
  destruct (type a); unfold _navigate, _click, _type, _scroll, _wait, _screenshot,
    _extract; repeat returns_step.
  apply returns_ret. split_and!; reflexivity.
Qed.

(** The two properties every result is to have, [origin] being the type of
    the action it is the result of (if it is the result of one). *)
Definition result_invariant (origin : option ActionType) (r : CommandResult) : Prop :=
  (is_Some (error r) -> success r = false)
  /\ (is_Some (screenshot r) -> success r = true /\ origin = Some SCREENSHOT).

Lemma success_of_invariant (t : ActionType) (r : CommandResult) :
  success_of t r -> result_invariant (Some t) r.
Proof.
  intros (Hs & He & Hshot). split.
  - rewrite He. intros [? ?]. discriminate.
  - intro H. split; [exact Hs | f_equal; exact (Hshot H)].
Qed.

Lemma failed_invariant (origin : option ActionType) (message : string) :
  result_invariant origin (failed message).
Proof. split; [reflexivity |]. intros [? ?]. discriminate. Qed.

Lemma execute_action_invariant (w : World) (a : WebAction) (st st' : State)
  (r : CommandResult) :
  execute_action w a st = (Ok r, st') -> result_invariant (Some (type a)) r.
Proof.
  unfold execute_action, bind, get, try_except, raise, ret.
  destruct (negb (truthy (page st))); [discriminate |].
  destruct (dispatch w a st) as [[r0|e] st0] eqn:Hd; intro H; injection H as <- <-.
  - apply success_of_invariant. exact (dispatch_returns_success w a st r0 st0 Hd).
  - apply failed_invariant.
Qed.

(** However the loop ends, the results it appended are the results of the
    actions of the same index. *)
Lemma run_actions_invariant (w : World) (acts : list WebAction) :
  forall (task task' : AutomationTask) (st st' : State) (oe : option exn),
    run_actions w acts task st = (oe, task', st') ->
    id task' = id task /\ prompt task' = prompt task
    /\ actions task' = actions task /\ status task' = status task
    /\ exists rs, results task' = (results task ++ rs)%list
         /\ forall i r, rs !! i = Some r ->
              exists a, acts !! i = Some a /\ result_invariant (Some (type a)) r.
Proof.
  induction acts as [|a acts IH]; intros task task' st st' oe; cbn [run_actions].
  - intro H. injection H as <- <- <-. split_and!; try reflexivity.
    exists []. rewrite app_nil_r. split; [reflexivity |].
    intros i r Hi. rewrite lookup_nil in Hi. discriminate.
  - destruct (execute_action w a st) as [[r|e] st1] eqn:Hrun.
    + intro H. apply IH in H as (Hid & Hpr & Hac & Hst & rs & Hrs & Hinv).
      cbn [append_result id prompt actions results status] in *.
      split_and!; try assumption.
      exists (r :: rs). split; [rewrite Hrs, <- app_assoc; reflexivity |].
      intros [|i] r' Hi.
      * cbn in Hi. injection Hi as <-. exists a. split; [reflexivity |].
        exact (execute_action_invariant w a st st1 r Hrun).
      * cbn in Hi. destruct (Hinv i r' Hi) as (a' & Ha' & Hr'). eauto.
    + intro H. injection H as <- <- <-. split_and!; try reflexivity.
      exists []. rewrite app_nil_r. split; [reflexivity |].
      intros i r Hi. rewrite lookup_nil in Hi. discriminate.
Qed.

Lemma task_failed_results (e : exn) (task : AutomationTask) :
  results (task_failed e task) = (results task ++ [failed (str_exn e)])%list
  /\ actions (task_failed e task) = actions task.
Proof. split; reflexivity. Qed.

(** C9: every result [execute_action] returns, and every result of a task
    [execute_task] returns (the result the handler appends included),
    carries an error text only when it is not successful, and names a saved
    image only when it is the successful result of a screenshot action. *)
Theorem results_are_well_formed (w : World) :
  (forall (a : WebAction) (st st' : State) (r : CommandResult),
      execute_action w a st = (Ok r, st') ->
      result_invariant (Some (type a)) r)
  /\ (forall (seconds : Z) (uuid_hex prompt : string) (st : State) (i : nat)
        (r : CommandResult),
        let task := fst (execute_task w seconds uuid_hex prompt st) in
        results task !! i = Some r ->
        result_invariant (type <$> (actions task !! i)) r).
Proof.
  split; [exact (execute_action_invariant w) |].
  intros seconds uuid_hex prompt st i r task. subst task. unfold execute_task.
  assert (Honly : forall e (t : AutomationTask),
             results t = [] ->
             results (task_failed e t) !! i = Some r ->
             result_invariant (type <$> (actions (task_failed e t) !! i)) r).
  { intros e t Hempty. destruct (task_failed_results e t) as [-> ->].
    rewrite Hempty. destruct i as [|i]; cbn;
      [| intro H; try rewrite lookup_nil in H; discriminate].
    intro H. injection H as <-. apply failed_invariant. }
  destruct (page_context w st) as [[[current_url content]|e] st1];
    [| cbn [fst]; apply Honly; reflexivity].
  destruct (generate_web_actions _ _) as [acts|e];
    [| cbn [fst]; apply Honly; reflexivity].
  destruct (run_actions w acts _ st1) as [[oe task'] st'] eqn:Hloop.
  apply run_actions_invariant in Hloop as (_ & _ & Hac & _ & rs & Hrs & Hinv).
  cbn [set_actions set_status Commands.id Commands.prompt actions results status app]
    in Hac, Hrs.
  destruct oe as [e|]; cbn [fst].
  - destruct (task_failed_results e task') as [-> ->].
    cbn [set_status results actions]. rewrite Hrs, Hac.
    intro Hi. destruct (lookup_app_Some rs [failed (str_exn e)] i r) as [Hcases _].
    destruct (Hcases Hi) as [Hin | [_ Hlast]].
    + destruct (Hinv i r Hin) as (a & Ha & Hr). rewrite Ha. exact Hr.
    + destruct (i - length rs)%nat; cbn in Hlast;
        [| try rewrite lookup_nil in Hlast; discriminate].
      injection Hlast as <-. apply failed_invariant.
  - cbn [set_status results actions]. rewrite Hrs, Hac.
    intro Hi. destruct (Hinv i r Hi) as (a & Ha & Hr). rewrite Ha. exact Hr.
Qed.

Lemma results_are_well_formed_witness :
  result_invariant (Some SCREENSHOT)
    {| success := true;
       data := Some {[ "filename" := VStr "screenshot-2024-01-02_03-04-05.png";
                       "path" := VStr "screenshots/screenshot-2024-01-02_03-04-05.png" ]};
       error := None;
       screenshot := Some "screenshots/screenshot-2024-01-02_03-04-05.png" |}
  /\ result_invariant (Some CLICK) (failed "'NoneType' object has no attribute 'startswith'").
Proof.
  split.
  - apply (proj1 (results_are_well_formed (world obliging_driver NoContent))
             (action SCREENSHOT) ready
             (log_call (PageScreenshot "screenshots/screenshot-2024-01-02_03-04-05.png" true)
                ready)).
    reflexivity.
  - apply (proj1 (results_are_well_formed (world failing_driver NoContent))
             (action CLICK) ready
             (log_call (WaitForSelector None 7000) ready)).
    reflexivity.
Defined.

(** Whatever the world, a task whose plan comes back empty runs no action
    and ends completed. *)
Lemma empty_plan_completed (w : World) (seconds : Z) (uuid_hex prompt : string)
  (st st1 : State) (current_url : string) (content : option PyVal) :
  page_context w st = (Ok (current_url, content), st1) ->
  generate_web_actions (enum_contains w)
    (completion w (trace st1) prompt current_url content) = Ok [] ->
  let task := fst (execute_task w seconds uuid_hex prompt st) in
  results task = [] /\ status task = COMPLETED
  /\ snd (execute_task w seconds uuid_hex prompt st) = st1.
Proof.
  intros Hctx Hplan. unfold execute_task. rewrite Hctx, Hplan.
  cbn. split_and!; reflexivity.
Qed.

(** ** Defaults of scroll and extract *)

Definition with_scroll_direction (d : option ScrollDirection) (a : WebAction) : WebAction :=
  {| type := type a; selector := selector a; text := text a; url := url a;
     wait_time := wait_time a; scroll_direction := d; extract_type := extract_type a |}.

Definition with_extract_type (x : option ExtractType) (a : WebAction) : WebAction :=
  {| type := type a; selector := selector a; text := text a; url := url a;
     wait_time := wait_time a; scroll_direction := scroll_direction a; extract_type := x |}.

Lemma scroll_down_script :
  "window.scrollBy(0, " +:+ pretty 500 +:+ ")" = "window.scrollBy(0, 500)".
Proof. vm_compute. reflexivity. Qed.

Lemma execute_action_same_dispatch (w : World) (a a' : WebAction) (st : State) :
  dispatch w a st = dispatch w a' st ->
  execute_action w a st = execute_action w a' st.
Proof.
  intro H. unfold execute_action, bind, get, try_except.
  destruct (negb (truthy (page st))); [reflexivity |]. rewrite H. reflexivity.
Qed.

Lemma plan_has_no_absent_member (ec : EnumContains) (reply : Reply)
  (plan : list WebAction) (a : WebAction) :
  generate_web_actions ec reply = Ok plan -> In a plan ->
  (type a = SCROLL -> is_Some (scroll_direction a))
  /\ (type a = EXTRACT -> is_Some (extract_type a)).
Proof.
  intros Hplan Hin.
  destruct (generated_plan_passes ec reply plan Hplan) as (_ & _ & Hall).
  rewrite List.Forall_forall in Hall. specialize (Hall a Hin).
  unfold passes_validation in Hall.
  split; intro Ht; rewrite Ht in Hall; apply bool_decide_eq_true in Hall; exact Hall.
Qed.

(** C6, as stated, fails: a scroll action without direction and an extract
    action without extract type do not survive plan validation.  Where
    [None in SomeEnum] answers false they are dropped and the rest of the plan
    runs without them; where it raises, the generation fails.  Either way
    they are not executed: the run below makes no scroll and no extraction. *)
Lemma absent_direction_never_reaches_execution :
  generate_web_actions NonMemberIsFalse
    (Decoded [scroll_data; extract_data; screenshot_data]) = Ok [action SCREENSHOT]
  /\ generate_web_actions NonMemberRaises
       (Decoded [scroll_data; extract_data; screenshot_data])
     = Raise (Exn ValueError
                "Failed to generate actions: unsupported operand type(s) for 'in': 'NoneType' and 'EnumMeta'")
  /\ (let run := execute_task
                   (world obliging_driver (Decoded [scroll_data; extract_data; screenshot_data]))
                   1700000000 "9f1c2ab47d3e4f60a1b2c3d4e5f60718" "scroll a bit" ready in
      List.map type (actions (fst run)) = [SCREENSHOT]
      /\ List.length (results (fst run)) = 1%nat
      /\ trace (snd run)
         = [PageContent;
            PageScreenshot "screenshots/screenshot-2024-01-02_03-04-05.png" true;
            AsyncioSleep 1000]).
Proof. split_and!; vm_compute; split_and?; reflexivity. Qed.

(** C6, amended: handed to [execute_action], a scroll action without
    direction runs as one with direction down (a scroll by +500), and an
    extract action without extract type runs as one with type text.  No plan
    returned by [generate_web_actions] holds such an action, though: plan
    validation requires the direction of a scroll action and the extract
    type of an extract action to be present. *)
Theorem defaults_apply_at_execution_only (w : World) (a : WebAction) (st : State) :
  (type a = SCROLL -> scroll_direction a = None ->
   execute_action w a st = execute_action w (with_scroll_direction (Some DOWN) a) st)
  /\ (type a = EXTRACT -> extract_type a = None ->
      execute_action w a st = execute_action w (with_extract_type (Some TEXT) a) st)
  /\ (forall v, type a = SCROLL -> scroll_direction a = None ->
        truthy (page st) = true ->
        respond w (trace st) (PageEvaluate "window.scrollBy(0, 500)") = Ok v ->
        execute_action w a st
        = (Ok (succeeded {[ "direction" := VStr "down"; "scroll_amount" := VInt 500 ]} None),
           log_call (AsyncioSleep 1000)
             (log_call (PageEvaluate "window.scrollBy(0, 500)") st)))
  /\ (forall v, type a = EXTRACT -> extract_type a = None -> selector a = None ->
        truthy (page st) = true ->
        respond w (trace st) (PageEvaluate "document.body.textContent") = Ok v ->
        execute_action w a st
        = (Ok (succeeded {[ "extract_type" := VStr "text"; "content" := v ]} None),
           log_call (PageEvaluate "document.body.textContent") st))
  /\ (forall ec reply plan,
        generate_web_actions ec reply = Ok plan -> In a plan ->
        (type a = SCROLL -> is_Some (scroll_direction a))
        /\ (type a = EXTRACT -> is_Some (extract_type a))).
Proof.
  split_and!.
  - intros Ht Hd. apply execute_action_same_dispatch.
    unfold dispatch, with_scroll_direction. cbn [type scroll_direction].
    rewrite Ht, Hd. reflexivity.
  - intros Ht Hx. apply execute_action_same_dispatch.
    unfold dispatch, with_extract_type. cbn [type extract_type selector].
    rewrite Ht, Hx. reflexivity.
  - intros v Ht Hd Hp Hr.
    unfold execute_action, bind, get, try_except. rewrite Hp. cbn [negb].
    unfold dispatch. rewrite Ht, Hd. unfold _scroll, bind, call, sleep, modify, ret.
    rewrite scroll_down_script, Hr. reflexivity.
  - intros v Ht Hx Hs Hp Hr.
    unfold execute_action, bind, get, try_except. rewrite Hp. cbn [negb].
    unfold dispatch. rewrite Ht, Hx, Hs. unfold _extract, bind, call, ret.
    rewrite Hr. reflexivity.
  - intros ec reply plan. apply plan_has_no_absent_member.
Qed.

Lemma defaults_apply_at_execution_only_witness :
  execute_action (world obliging_driver NoContent) (action SCROLL) ready
  = (Ok (succeeded {[ "direction" := VStr "down"; "scroll_amount" := VInt 500 ]} None),
     with_trace [PageEvaluate "window.scrollBy(0, 500)"; AsyncioSleep 1000] ready)
  /\ execute_action (world obliging_driver NoContent) (action EXTRACT) ready
     = (Ok (succeeded {[ "extract_type" := VStr "text"; "content" := VNone ]} None),
        with_trace [PageEvaluate "document.body.textContent"] ready)
  /\ is_Some (scroll_direction (with_scroll_direction (Some UP) (action SCROLL))).
Proof.
  split_and!.
  - apply (proj1 (proj2 (proj2
             (defaults_apply_at_execution_only (world obliging_driver NoContent)
                (action SCROLL) ready))) VNone); reflexivity.
  - apply (proj1 (proj2 (proj2 (proj2
             (defaults_apply_at_execution_only (world obliging_driver NoContent)
                (action EXTRACT) ready)))) VNone); reflexivity.
  - apply (proj2 (proj2 (proj2 (proj2
             (defaults_apply_at_execution_only (world obliging_driver NoContent)
                (with_scroll_direction (Some UP) (action SCROLL)) ready))))
             NonMemberIsFalse
             (Decoded [{| d_type := Some "scroll"; d_selector := None; d_text := None;
                          d_url := None; d_wait_time := None;
                          d_scroll_direction := Some "up"; d_extract_type := None |}])
             [with_scroll_direction (Some UP) (action SCROLL)]);
      [reflexivity | left; reflexivity | reflexivity].
Defined.

(** * Further properties *)

(** ** Start-up validation *)

(** X1: for a configuration read by [from_env], [validate_config] accepts
    exactly when OPENAI_API_KEY is set to a non-empty text; otherwise it
    raises the error that names the variable. *)
Theorem startup_validation_needs_credential (env : Config.Environ) (c : Config.Config) :
  Config.from_env env = Ok c ->
  (Config.validate_config c = Ok tt
   <-> exists k, env !! "OPENAI_API_KEY" = Some k /\ k <> "")
  /\ (Config.validate_config c <> Ok tt ->
      Config.validate_config c
      = Raise (Exn ValueError "OPENAI_API_KEY environment variable is required")).
Proof.
  unfold Config.from_env, Config.getenv_default.
  destruct (PyStr.int_of_str _) as [t|]; [|discriminate].
  destruct (PyStr.int_of_str _) as [wd|]; [|discriminate].
  destruct (PyStr.int_of_str _) as [h|]; [|discriminate].
  intro H. injection H as <-. unfold Config.validate_config.
  cbn [Config.openai_api_key].
  destruct (env !! "OPENAI_API_KEY") as [k|].
  - destruct (String.eqb_spec k "") as [->|Hne]; split.
    + split; [discriminate | intros (k' & Hk & Hne); congruence].
    + reflexivity.
    + split; [eauto | reflexivity].
    + congruence.
  - cbn. split.
    + split; [discriminate | intros (k' & Hk & _); discriminate].
    + reflexivity.
Qed.

Lemma startup_validation_needs_credential_witness :
  Config.validate_config
    {| Config.openai_api_key := "sk-test";
       Config.browser := {| Config.headless := false; Config.timeout := 30000;
                            Config.viewport_width := 1920;
                            Config.viewport_height := 1080 |};
       Config.logging := {| Config.level := "INFO" |} |}
  = Ok tt.
Proof.
  destruct (startup_validation_needs_credential {[ "OPENAI_API_KEY" := "sk-test" ]}
              {| Config.openai_api_key := "sk-test";
                 Config.browser := {| Config.headless := false;
                                      Config.timeout := 30000;
                                      Config.viewport_width := 1920;
                                      Config.viewport_height := 1080 |};
                 Config.logging := {| Config.level := "INFO" |} |})
    as [[_ Haccepts] _].
  - vm_compute. reflexivity.
  - apply Haccepts. exists "sk-test". split; [vm_compute; reflexivity | discriminate].
Defined.

(** ** What a generated plan guarantees *)

Lemma truthy_str_some (o : option string) :
  truthy_str o = true -> exists s, o = Some s /\ s <> "".
Proof.
  destruct o as [s|]; [|discriminate]. cbn.
  destruct (String.eqb_spec s ""); [discriminate |]. eauto.
Qed.

(** X2: every action of a plan returned by [generate_web_actions] has the
    fields its type needs: a navigate action a non-empty URL, a click or
    type action a non-empty selector, a type action a non-empty text. *)
Theorem generated_plan_has_required_fields (ec : EnumContains) (reply : Reply)
  (plan : list WebAction) (a : WebAction) :
  generate_web_actions ec reply = Ok plan -> In a plan ->
  (type a = NAVIGATE -> exists u, url a = Some u /\ u <> "")
  /\ (type a = CLICK \/ type a = TYPE -> exists s, selector a = Some s /\ s <> "")
  /\ (type a = TYPE -> exists t, text a = Some t /\ t <> "").
Proof.
  intros Hplan Hin.
  destruct (generated_plan_passes ec reply plan Hplan) as (_ & _ & Hall).
  rewrite List.Forall_forall in Hall. specialize (Hall a Hin).
  unfold passes_validation in Hall.
  split_and!.
  - intro Ht. rewrite Ht in Hall. apply truthy_str_some. exact Hall.
  - intros [Ht | Ht]; rewrite Ht in Hall; apply truthy_str_some.
    + exact Hall.
    + apply andb_prop in Hall. tauto.
  - intro Ht. rewrite Ht in Hall. apply truthy_str_some.
    apply andb_prop in Hall. tauto.
Qed.

Lemma generated_plan_has_required_fields_witness :
  exists u, url navigate_example = Some u /\ u <> "".
Proof.
  apply (proj1 (generated_plan_has_required_fields NonMemberRaises
                  (Decoded [click_blank_data; navigate_data]) [navigate_example]
                  navigate_example ltac:(vm_compute; reflexivity)
                  ltac:(left; reflexivity))).
  reflexivity.
Defined.

Lemma sublist_filter_bool {A} (f : A -> bool) (l : list A) :
  sublist (List.filter f l) l.
Proof.
  induction l as [|x l IH]; cbn [List.filter]; [constructor |].
  destruct (f x); [apply sublist_skip | apply sublist_cons]; exact IH.
Qed.

Lemma passes_without_absent_member (a : WebAction) :
  passes_validation a = true -> tests_absent_member a = false.
Proof.
  unfold passes_validation, tests_absent_member.
  destruct (type a); try reflexivity; intro H; apply bool_decide_eq_true in H;
    destruct H as [x Hx]; rewrite Hx; reflexivity.
Qed.

Lemma validate_loop_all_pass (ec : EnumContains) (acts acc : list WebAction) :
  List.Forall (fun a => passes_validation a = true) acts ->
  validate_loop ec acts acc = Ok (acc ++ acts)%list.
Proof.
  intro Hall. revert acc.
  induction Hall as [|a acts Ha _ IH]; intro acc; cbn [validate_loop].
  - rewrite app_nil_r. reflexivity.
  - assert (Hv : _is_valid_action ec a = Ok true).
    { destruct ec.
      - rewrite (is_valid_action_strict a (passes_without_absent_member a Ha)), Ha.
        reflexivity.
      - rewrite is_valid_action_lenient, Ha. reflexivity. }
    rewrite Hv, IH, <- app_assoc. reflexivity.
Qed.

(** X3: when [_validate_actions] returns, what it returns is the input with
    some actions removed and nothing reordered, every kept action is one
    [_is_valid_action] accepts, and validating the result again changes
    nothing. *)
Theorem validation_filters_in_order (ec : EnumContains) (acts valid : list WebAction) :
  _validate_actions ec acts = Ok valid ->
  sublist valid acts
  /\ (forall a, In a valid -> _is_valid_action ec a = Ok true)
  /\ (forall a, In a acts -> _is_valid_action ec a = Ok true -> In a valid)
  /\ _validate_actions ec valid = Ok valid.
Proof.
  unfold _validate_actions. intro H.
  apply validate_loop_sound in H. cbn [app] in H. subst valid.
  assert (Hall : List.Forall (fun a => passes_validation a = true)
                   (List.filter passes_validation acts)).
  { apply List.Forall_forall. intros a Ha. apply List.filter_In in Ha. tauto. }
  split_and!.
  - apply sublist_filter_bool.
  - intros a Ha. apply List.filter_In in Ha as [_ Hp].
    destruct ec.
    + rewrite (is_valid_action_strict a (passes_without_absent_member a Hp)), Hp.
      reflexivity.
    + rewrite is_valid_action_lenient, Hp. reflexivity.
  - intros a Ha Hv. apply List.filter_In. split; [exact Ha |].
    apply is_valid_action_sound in Hv. congruence.
  - rewrite (validate_loop_all_pass ec _ [] Hall). reflexivity.
Qed.

Lemma validation_filters_in_order_witness :
  sublist [navigate_example; action SCREENSHOT]
          [navigate_example; action CLICK; action SCREENSHOT]
  /\ _validate_actions NonMemberIsFalse [navigate_example; action SCREENSHOT]
     = Ok [navigate_example; action SCREENSHOT].
Proof.
  destruct (validation_filters_in_order NonMemberIsFalse
              [navigate_example; action CLICK; action SCREENSHOT]
              [navigate_example; action SCREENSHOT]
              ltac:(vm_compute; reflexivity)) as (Hsub & _ & _ & Hidem).
  split; [exact Hsub | exact Hidem].
Defined.

Lemma prefix_append (p s : string) : String.prefix p (p +:+ s) = true.
Proof.
  induction p as [|c p IH].
  - destruct s; reflexivity.
  - change (String c p +:+ s) with (String c (p +:+ s)).
    cbn [String.prefix]. destruct (ascii_dec c c); [exact IH | congruence].
Qed.



(** ** Navigation *)

Lemma startswith_append (p s : string) : PyStr.startswith p (p +:+ s) = true.
Proof. apply prefix_append. Qed.

(** X5: whatever URL a navigate action carries, the address handed to the
    driver starts with http:// or https://: an address that already does is
    passed as it is, any other gets https:// put in front.  The URL reported
    on success is the page's own after the navigation, not the one asked
    for. *)
Theorem navigate_target_has_scheme (w : World) (url : string) (st : State) :
  exists target,
    trace (snd (_navigate w (Some url) st))
    = (trace st ++ [PageGoto target "networkidle"])%list
    /\ PyStr.startswith_any ["http://"; "https://"] target = true
    /\ (PyStr.startswith_any ["http://"; "https://"] url = true -> target = url)
    /\ (PyStr.startswith_any ["http://"; "https://"] url = false ->
        target = "https://" +:+ url)
    /\ (forall v, respond w (trace st) (PageGoto target "networkidle") = Ok v ->
        fst (_navigate w (Some url) st)
        = Ok (succeeded
                {[ "url" := VStr (page_url w
                                    (trace st ++ [PageGoto target "networkidle"])%list);
                   "action" := VStr "navigated" ]} None))
    /\ (forall e, respond w (trace st) (PageGoto target "networkidle") = Raise e ->
        fst (_navigate w (Some url) st) = Raise e).
Proof.
  unfold _navigate. unfold_m.
  destruct (PyStr.startswith_any ["http://"; "https://"] url) eqn:Hs.
  - exists url. cbn [trace log_call].
    destruct (respond w (trace st) (PageGoto url "networkidle")) as [v|e] eqn:Hr;
      cbn [fst snd trace log_call];
      split_and!;
      first [ reflexivity | assumption | discriminate
            | intros ? ?; first [reflexivity | congruence] ].
  - exists ("https://" +:+ url).
    assert (Hp : PyStr.startswith_any ["http://"; "https://"] ("https://" +:+ url) = true).
    { unfold PyStr.startswith_any. cbn [existsb].
      rewrite (startswith_append "https://" url). rewrite orb_true_r. reflexivity. }
    destruct (respond w (trace st) (PageGoto ("https://" +:+ url) "networkidle"))
      as [v|e] eqn:Hr;
      cbn [fst snd trace log_call];
      split_and!;
      first [ reflexivity | assumption | discriminate
            | intros ? ?; first [reflexivity | congruence] ].
Qed.

Lemma navigate_target_has_scheme_witness :
  _navigate (world obliging_driver NoContent) (Some "example.com") ready
  = (Ok (succeeded {[ "url" := VStr "https://example.com/";
                      "action" := VStr "navigated" ]} None),
     with_trace [PageGoto "https://example.com" "networkidle"] ready).
Proof.
  destruct (navigate_target_has_scheme (world obliging_driver NoContent) "example.com" ready)
    as (target & Htrace & _ & _ & Htarget & Hok & _).
  specialize (Htarget ltac:(reflexivity)). subst target.
  specialize (Hok VNone ltac:(reflexivity)).
  reflexivity.
Defined.

(** ** Extraction *)

(** X6: for [_extract] an empty selector is no selector: the whole page is
    read.  And a links extraction never looks at its selector. *)
Theorem extract_selector_edge_cases (w : World) (st : State) :
  (forall t, _extract w t (Some "") st = _extract w t None st)
  /\ (forall sel sel', _extract w LINKS sel st = _extract w LINKS sel' st)
  /\ trace (snd (_extract w LINKS None st)) = (trace st ++ [PageEvaluate links_script])%list
  /\ trace (snd (_extract w TEXT None st))
     = (trace st ++ [PageEvaluate "document.body.textContent"])%list
  /\ trace (snd (_extract w HTML None st)) = (trace st ++ [PageContent])%list.
Proof.
  split_and!.
  - intros [| |]; reflexivity.
  - intros sel sel'. reflexivity.
  - unfold _extract. unfold_m.
    destruct (respond w (trace st) (PageEvaluate links_script)); reflexivity.
  - unfold _extract. unfold_m.
    destruct (respond w (trace st) (PageEvaluate "document.body.textContent"));
      reflexivity.
  - unfold _extract. unfold_m.
    destruct (respond w (trace st) PageContent); reflexivity.
Qed.

(** X7: a text or markup extraction whose non-empty selector matches no
    element still succeeds: its content is [None], and the element is never
    read. *)
Theorem extract_without_match_succeeds (w : World) (t : ExtractType) (sel : string)
  (st : State) (element : PyVal) :
  t <> LINKS -> sel <> "" ->
  respond w (trace st) (QuerySelector sel) = Ok element ->
  truthy element = false ->
  _extract w t (Some sel) st
  = (Ok (succeeded {[ "extract_type" := VStr (ExtractType_value t);
                      "content" := VNone ]} None),
     log_call (QuerySelector sel) st).
Proof.
  intros Ht Hsel Hr Hel.
  assert (Htruthy : truthy_str (Some sel) = true).
  { cbn. destruct (String.eqb_spec sel ""); [congruence | reflexivity]. }
  unfold _extract. unfold_m.
  destruct t; [| | congruence]; rewrite Htruthy, Hr, Hel; reflexivity.
Qed.

Lemma extract_without_match_succeeds_witness :
  _extract (world obliging_driver NoContent) TEXT (Some "#price") ready
  = (Ok (succeeded {[ "extract_type" := VStr "text"; "content" := VNone ]} None),
     with_trace [QuerySelector "#price"] ready).
Proof.
  apply (extract_without_match_succeeds (world obliging_driver NoContent) TEXT "#price"
           ready VNone); [discriminate | discriminate | reflexivity | reflexivity].
Defined.

(** ** Page content *)

(** X8: [get_page_content] absorbs a failure of the driver: it logs a
    warning and answers the empty text, as it does without a page (asking
    the driver nothing) and when the driver hands back something empty.  The
    only exception that leaves it is one raised by that log call. *)
Theorem page_content_raises_only_from_its_log (emit : Logged.Output -> option exn)
  (w : World) (st : State) :
  match Logged.get_page_content emit w st with
  | (Ok v, st') =>
      (truthy v = true \/ v = VStr "")
      /\ (truthy (page st) = false -> v = VStr "" /\ st' = st)
      /\ (truthy (page st) = true -> st' = log_call PageContent st)
      /\ (forall e, truthy (page st) = true ->
            respond w (trace st) PageContent = Raise e ->
            v = VStr "" /\ emit (Logged.LogPageContentFailed e) = None)
  | (Raise raised, st') =>
      truthy (page st) = true
      /\ st' = log_call PageContent st
      /\ exists e, respond w (trace st) PageContent = Raise e
                   /\ emit (Logged.LogPageContentFailed e) = Some raised
  end.
Proof.
  unfold Logged.get_page_content, Logged.announce. unfold_m.
  destruct (truthy (page st)) eqn:Hp; cbn [negb].
  - destruct (respond w (trace st) PageContent) as [c|e] eqn:Hr.
    + destruct (truthy c) eqn:Hc;
        (split_and!; [ | discriminate | reflexivity | discriminate]).
      * left. exact Hc.
      * right. reflexivity.
    + destruct (emit (Logged.LogPageContentFailed e)) as [raised|] eqn:He.
      * split_and!; [reflexivity | reflexivity |]. exists e. split; [reflexivity | exact He].
      * split_and!; [right; reflexivity | discriminate | reflexivity |].
        intros e' _ He'. injection He' as <-. split; [reflexivity | exact He].
  - split_and!; [right; reflexivity | | discriminate | discriminate].
    intros _. split; reflexivity.
Qed.

(** ** Start-up and teardown, composed *)

Definition no_handle (st : State) : Prop :=
  truthy (playwright st) = false /\ truthy (browser st) = false
  /\ truthy (page st) = false.

(** A driver on which the three teardown operations never fail *)
Definition teardown_succeeds (w : World) : Prop :=
  forall tr, is_ok (respond w tr PageClose) = true
             /\ is_ok (respond w tr BrowserClose) = true
             /\ is_ok (respond w tr PlaywrightStop) = true.

Ltac settle_handles :=
  cbn [log_call set_page set_browser set_playwright playwright browser page trace].

Ltac teardown_case Htd :=
  match goal with
  | |- context [respond ?w ?tr PageClose] =>
      let H := fresh in
      pose proof (proj1 (Htd tr)) as H;
      destruct (respond w tr PageClose); [clear H | discriminate H]
  | |- context [respond ?w ?tr BrowserClose] =>
      let H := fresh in
      pose proof (proj1 (proj2 (Htd tr))) as H;
      destruct (respond w tr BrowserClose); [clear H | discriminate H]
  | |- context [respond ?w ?tr PlaywrightStop] =>
      let H := fresh in
      pose proof (proj2 (proj2 (Htd tr))) as H;
      destruct (respond w tr PlaywrightStop); [clear H | discriminate H]
  end.

(** When the teardown operations succeed, [close] returns and leaves no
    handle set. *)
Lemma close_clears_handles (w : World) (st : State) :
  teardown_succeeds w ->
  exists st', close w st = (Ok tt, st') /\ no_handle st'.
Proof.
  intro Htd. unfold close, no_handle. unfold_m.
  destruct st as [pw br pg tr]. cbn [playwright browser page trace].
  destruct (truthy pg) eqn:Hpg;
    destruct (truthy br) eqn:Hbr;
    destruct (truthy pw) eqn:Hpw;
    repeat (repeat (progress (settle_handles; rewrite ?Hpg, ?Hbr, ?Hpw));
            teardown_case Htd);
    repeat (progress (settle_handles; rewrite ?Hpg, ?Hbr, ?Hpw));
    eexists; (split; [reflexivity |]);
    cbn [playwright browser page truthy]; auto.
Qed.

(** On the path that returns, [close] with its log call is [close]
    without. *)
Lemma logged_close_returns (emit : Logged.Output -> option exn) (w : World)
  (st st' : State) :
  close w st = (Ok tt, st') -> Logged.close emit w st = (Ok tt, st').
Proof.
  unfold close, Logged.close, try_except.
  match goal with
  | |- match ?body st with _ => _ end = _ -> _ => destruct (body st) as [[u|e] st0]
  end.
  - auto.
  - unfold raise. discriminate.
Qed.

(** The start-up operations of [initialize], in order *)
Definition startup_calls (config : Config.Config) : list Call :=
  [PlaywrightStart;
   ChromiumLaunch (Config.headless (Config.browser config)) launch_args;
   NewPage;
   SetViewportSize (Config.viewport_width (Config.browser config))
                   (Config.viewport_height (Config.browser config));
   SetDefaultTimeout (Config.timeout (Config.browser config))].

(** X9: when [initialize] raises, one of its start-up operations has
    failed, and the handler logs that failure before anything else.  If the
    log call returns, the handler closes what was started: provided the
    teardown operations succeed no handle is left set, and the exception
    raised is the one of the start-up operation.  If the log call raises,
    its exception is raised and the teardown is skipped: the failed
    operation is the last one asked of the driver, and the driver handle
    that [start] returned stays set. *)
Theorem failed_initialize_logs_then_cleans_up (emit : Logged.Output -> option exn)
  (w : World) (config : Config.Config) (st st' : State) (e : exn) :
  teardown_succeeds w ->
  Logged.initialize emit w config st = (Raise e, st') ->
  exists tr c cause,
    In c (startup_calls config)
    /\ respond w tr c = Raise cause
    /\ match emit (Logged.LogInitializeFailed cause) with
       | None => e = cause /\ no_handle st'
       | Some raised =>
           e = raised
           /\ trace st' = (tr ++ [c])%list
           /\ forall pw, respond w (trace st) PlaywrightStart = Ok pw ->
                         playwright st' = pw
       end.
Proof.
  intros Htd. unfold Logged.initialize, startup_calls.
  unfold try_except at 1.
  match goal with
  | |- context [match ?body st with _ => _ end] => destruct (body st) as [[u|e0] st0] eqn:Hbody
  end; [discriminate |].
  unfold bind at 1, Logged.announce.
  destruct (emit (Logged.LogInitializeFailed e0)) as [raised|] eqn:He.
  - intro H. injection H as <- <-.
    unfold_m.
    repeat match type of Hbody with
      | context [respond w ?tr ?c] =>
          let Hr := fresh "Hr" in
          destruct (respond w tr c) eqn:Hr;
          cbn [log_call set_page set_browser set_playwright playwright browser page
               trace] in Hbody
      end;
      try discriminate;
      injection Hbody as <- <-;
      match goal with
      | Hr : respond w ?tr ?c = Raise ?e |- _ =>
          exists tr, c, e; split_and!; [cbn; tauto | exact Hr |]
      end;
      rewrite He;
      (split_and!; [reflexivity | reflexivity |]);
      intros pw Hpw; cbn [playwright log_call set_page set_browser set_playwright];
      congruence.
  - unfold bind at 1, raise.
    destruct (close_clears_handles w st0 Htd) as (st1 & Hclose & Hno).
    rewrite (logged_close_returns emit w st0 st1 Hclose).
    intro H. injection H as <- <-.
    clear Hclose.
    unfold_m.
    repeat match type of Hbody with
      | context [respond w ?tr ?c] =>
          let Hr := fresh "Hr" in
          destruct (respond w tr c) eqn:Hr;
          cbn [log_call set_page set_browser set_playwright playwright browser page
               trace] in Hbody
      end;
      try discriminate;
      injection Hbody as <- _;
      match goal with
      | Hr : respond w ?tr ?c = Raise ?e |- _ =>
          exists tr, c, e; split_and!; [cbn; tauto | exact Hr |]
      end;
      rewrite He; (split; [reflexivity | exact Hno]).
Qed.

Lemma failed_initialize_logs_then_cleans_up_witness :
  exists tr c cause,
    In c (startup_calls
            {| Config.openai_api_key := "sk-test";
               Config.browser := {| Config.headless := false; Config.timeout := 30000;
                                    Config.viewport_width := 1920;
                                    Config.viewport_height := 1080 |};
               Config.logging := {| Config.level := "INFO" |} |})
    /\ respond (world launch_fails NoContent) tr c = Raise cause
    /\ match rendering_console (Logged.LogInitializeFailed cause) with
       | None =>
           Exn DriverError "executable not found" = cause
           /\ no_handle (with_trace [PlaywrightStart; ChromiumLaunch false launch_args;
                                     PlaywrightStop] init)
       | Some raised =>
           Exn DriverError "executable not found" = raised
           /\ trace (with_trace [PlaywrightStart; ChromiumLaunch false launch_args;
                                 PlaywrightStop] init)
              = (tr ++ [c])%list
           /\ forall pw,
                respond (world launch_fails NoContent) (trace init) PlaywrightStart = Ok pw ->
                playwright (with_trace [PlaywrightStart; ChromiumLaunch false launch_args;
                                        PlaywrightStop] init) = pw
       end.
Proof.
  apply (failed_initialize_logs_then_cleans_up rendering_console
           (world launch_fails NoContent)
           {| Config.openai_api_key := "sk-test";
              Config.browser := {| Config.headless := false; Config.timeout := 30000;
                                   Config.viewport_width := 1920;
                                   Config.viewport_height := 1080 |};
              Config.logging := {| Config.level := "INFO" |} |}
           init
           (with_trace [PlaywrightStart; ChromiumLaunch false launch_args;
                        PlaywrightStop] init)
           (Exn DriverError "executable not found")).
  - intro tr. repeat split.
  - vm_compute. reflexivity.
Defined.

(** The handle that leaks when the log call of the handler raises: the
    browser cannot be launched, the text of that failure does not render, and
    [initialize] ends with the driver still started. *)
Lemma initialize_log_failure_skips_teardown :
  Logged.initialize rendering_console
    (world (fun tr c => match c with
                        | ChromiumLaunch _ _ =>
                            Raise (Exn DriverError "cannot launch [/close]")
                        | _ => launch_fails tr c
                        end) NoContent)
    {| Config.openai_api_key := "sk-test";
       Config.browser := {| Config.headless := false; Config.timeout := 30000;
                            Config.viewport_width := 1920;
                            Config.viewport_height := 1080 |};
       Config.logging := {| Config.level := "INFO" |} |} init
  = (Raise markup_error,
     {| playwright := VHandle 0; browser := VNone; page := VNone;
        trace := [PlaywrightStart; ChromiumLaunch false launch_args] |}).
Proof. vm_compute. reflexivity. Qed.

(** X10: closing twice is closing once.  After a [close] that returned, no
    handle is set, and a further [close] does nothing: no driver operation,
    no change, no error. *)
Theorem close_is_idempotent (w : World) (st st' : State) :
  close w st = (Ok tt, st') ->
  no_handle st' /\ close w st' = (Ok tt, st').
Proof.
  intro Hclose.
  assert (Hno : no_handle st').
  { revert Hclose. unfold close, no_handle. unfold_m.
    destruct st as [pw br pg tr]. cbn [playwright browser page trace].
    destruct (truthy pg) eqn:Hpg;
      destruct (truthy br) eqn:Hbr;
      destruct (truthy pw) eqn:Hpw;
      repeat (repeat (progress (settle_handles; rewrite ?Hpg, ?Hbr, ?Hpw));
              match goal with
              | |- context [respond w ?t ?c] => destruct (respond w t c)
              end);
      repeat (progress (settle_handles; rewrite ?Hpg, ?Hbr, ?Hpw));
      intro H; try discriminate H; injection H as <-;
      cbn [playwright browser page truthy]; auto. }
  split; [exact Hno |].
  destruct Hno as (Hpw & Hbr & Hpg).
  unfold close. unfold_m. rewrite Hpg, Hbr, Hpw. reflexivity.
Qed.

Lemma close_is_idempotent_witness :
  close (world obliging_driver NoContent)
    (with_trace [PageClose; BrowserClose; PlaywrightStop] init)
  = (Ok tt, with_trace [PageClose; BrowserClose; PlaywrightStop] init).
Proof.
  apply (proj2 (close_is_idempotent (world obliging_driver NoContent) ready
                  (with_trace [PageClose; BrowserClose; PlaywrightStop] init)
                  ltac:(reflexivity))).
Defined.

(** ** What a run leaves alone *)

(** [st'] continues [st]: the same handles, and a trace that only got
    longer. *)
Definition continues (st st' : State) : Prop :=
  same_handles st st' /\ exists cs, trace st' = (trace st ++ cs)%list.

Definition steady {A} (m : M A) : Prop := forall st, continues st (snd (m st)).

Lemma continues_refl st : continues st st.
Proof. split; [apply same_handles_refl | exists []; rewrite app_nil_r; reflexivity]. Qed.

Lemma continues_trans st1 st2 st3 :
  continues st1 st2 -> continues st2 st3 -> continues st1 st3.
Proof.
  intros [H12 [cs1 E1]] [H23 [cs2 E2]]. split.
  - eapply same_handles_trans; eassumption.
  - exists (cs1 ++ cs2)%list. rewrite E2, E1, app_assoc. reflexivity.
Qed.

Lemma continues_log_call c st : continues st (log_call c st).
Proof. split; [repeat split | exists [c]; reflexivity]. Qed.

Lemma steady_ret {A} (a : A) : steady (ret a).
Proof. intro st. apply continues_refl. Qed.

Lemma steady_raise {A} (e : exn) : steady (@raise A e).
Proof. intro st. apply continues_refl. Qed.

Lemma steady_get : steady get.
Proof. intro st. apply continues_refl. Qed.

Lemma steady_call w c : steady (call w c).
Proof. intro st. apply continues_log_call. Qed.

Lemma steady_sleep ms : steady (sleep ms).
Proof. intro st. apply continues_log_call. Qed.

Lemma steady_bind {A B} (m : M A) (k : A -> M B) :
  steady m -> (forall a, steady (k a)) -> steady (bind m k).
Proof.
  intros Hm Hk st. unfold bind. specialize (Hm st).
  destruct (m st) as [[a|e] st1]; cbn [snd] in *; [|assumption].
  eapply continues_trans; [eassumption | apply Hk].
Qed.

Lemma steady_try {A} (body : M A) (handler : exn -> M A) :
  steady body -> (forall e, steady (handler e)) -> steady (try_except body handler).
Proof.
  intros Hb Hh st. unfold try_except. specialize (Hb st).
  destruct (body st) as [[a|e] st1]; cbn [snd] in *; [assumption|].
  eapply continues_trans; [eassumption | apply Hh].
Qed.

Ltac steady_step :=
  match goal with
  | |- forall _, _ => intro
  | |- steady (bind _ _) => apply steady_bind
  | |- steady (try_except _ _) => apply steady_try
  | |- steady (ret _) => apply steady_ret
  | |- steady (raise _) => apply steady_raise
  | |- steady get => apply steady_get
  | |- steady (call _ _) => apply steady_call
  | |- steady (sleep _) => apply steady_sleep
  | |- steady (if ?b then _ else _) => destruct b
  | |- steady (let '(_, _) := ?p in _) => destruct p
  | |- steady (match ?x with _ => _ end) => destruct x
  end.

Lemma steady_execute_action (w : World) (a : WebAction) : steady (execute_action w a).
Proof.
  unfold execute_action, dispatch, _navigate, _click, click_verbatim, click_fallbacks,
    click_text, click_xpath, click_role, _type, _scroll, _wait, _screenshot, _extract.
  repeat steady_step.
Qed.

Lemma steady_page_context (w : World) : steady (page_context w).
Proof.
  unfold page_context, get_current_url, get_page_content. repeat steady_step.
Qed.

Lemma run_actions_continues (w : World) (acts : list WebAction) :
  forall task st oe task' st',
    run_actions w acts task st = (oe, task', st') -> continues st st'.
Proof.
  induction acts as [|a acts IH]; intros task st oe task' st'; cbn [run_actions].
  - intro H. injection H as _ _ <-. apply continues_refl.
  - pose proof (steady_execute_action w a st) as Hstep.
    destruct (execute_action w a st) as [[r|e] st1]; cbn [snd] in Hstep.
    + intro H. apply IH in H.
      eapply continues_trans; [exact Hstep |].
      eapply continues_trans; [apply continues_log_call | exact H].
    + intro H. injection H as _ _ <-. exact Hstep.
Qed.

(** X11: neither a single action nor a whole task touches the controller's
    three handles, and both only add to the record of driver operations:
    what was done before stays as it was. *)
Theorem runs_keep_handles_and_history (w : World) (st : State) :
  (forall a, continues st (snd (execute_action w a st)))
  /\ (forall seconds uuid_hex prompt,
        continues st (snd (execute_task w seconds uuid_hex prompt st))).
Proof.
  split; [intro a; apply steady_execute_action |].
  intros seconds uuid_hex prompt. unfold execute_task.
  pose proof (steady_page_context w st) as Hctx.
  destruct (page_context w st) as [[[current_url content]|e] st1]; cbn [snd] in *;
    [| exact Hctx].
  destruct (generate_web_actions _ _) as [acts|e]; cbn [snd]; [| exact Hctx].
  destruct (run_actions w acts _ st1) as [[oe task'] st'] eqn:Hloop.
  apply run_actions_continues in Hloop.
  destruct oe; cbn [snd]; eapply continues_trans; eassumption.
Qed.

(** ** How a task ends *)




(** The loop with its display and log calls changes nothing of a task but
    its results. *)
Lemma logged_run_actions_keeps (emit : Logged.Output -> option exn) (w : World)
  (acts : list WebAction) :
  forall (i : nat) (task task' : AutomationTask) (st st' : State) (oe : option exn),
    Logged.run_actions emit w i acts task st = (oe, task', st') ->
    Commands.id task' = Commands.id task /\ Commands.prompt task' = Commands.prompt task
    /\ actions task' = actions task /\ status task' = status task.
Proof.
  induction acts as [|a acts IH]; intros i task task' st st' oe;
    cbn [Logged.run_actions].
  - intro H. injection H as <- <- <-. split_and!; reflexivity.
  - destruct (emit (Logged.PrintStep (S i) a));
      [intro H; injection H as <- <- <-; split_and!; reflexivity |].
    destruct (Logged.execute_action emit w a st) as [[r|e] st1];
      [| intro H; injection H as <- <- <-; split_and!; reflexivity].
    destruct (Logged.emit_all emit _);
      [intro H; injection H as <- <- <-; split_and!; reflexivity |].
    intro H. apply IH in H as (Hid & Hpr & Hac & Hst).
    cbn [append_result Commands.id Commands.prompt actions status] in *.
    split_and!; assumption.
Qed.



(** X13: when the plan cannot be generated, the handler shows and logs the
    text of the error and the task fails with exactly one result, a failure
    carrying that text; it holds no action, and nothing is asked of the
    driver after the page context was read.  This supposes that the task
    header and the text of the error render; when the line that shows the
    error raises, that exception leaves [execute_task] and no task is
    returned. *)
Theorem planning_failure_fails_task (emit : Logged.Output -> option exn) (w : World)
  (seconds : Z) (uuid_hex prompt : string)
  (st st1 : State) (current_url : string) (content : option PyVal) (e : exn) :
  let task_id := _generate_task_id seconds uuid_hex in
  emit (Logged.LogTaskStarted task_id prompt) = None ->
  emit (Logged.PrintProcessing prompt) = None ->
  Logged.page_context emit w st = (Ok (current_url, content), st1) ->
  Logged.generate_web_actions emit (enum_contains w)
    (completion w (trace st1) prompt current_url content) = Raise e ->
  (emit (Logged.PrintTaskFailed (str_exn e)) = None ->
   emit (Logged.LogTaskError task_id (str_exn e)) = None ->
   Logged.execute_task emit w seconds uuid_hex prompt st
   = (Ok {| id := task_id; prompt := prompt; actions := [];
            results := [failed (str_exn e)]; status := FAILED |}, st1))
  /\ (forall raised,
        emit (Logged.PrintTaskFailed (str_exn e)) = Some raised ->
        Logged.execute_task emit w seconds uuid_hex prompt st = (Raise raised, st1)).
Proof.
  intros task_id. subst task_id. intros Hstart Hshow Hctx Hplan.
  unfold Logged.execute_task, Logged.attempt_task.
  cbn [Logged.emit_all set_status Commands.id Commands.prompt].
  rewrite Hstart, Hshow, Hctx, Hplan.
  cbn [Logged.emit_all set_status Commands.id Commands.prompt].
  split.
  - intros Hprint Hlog. rewrite Hprint, Hlog. reflexivity.
  - intros raised Hprint. rewrite Hprint. reflexivity.
Qed.

Lemma planning_failure_fails_task_witness :
  Logged.execute_task rendering_console
    (world obliging_driver (NotJson "Expecting value: line 1 column 1 (char 0)"))
    1700000000 "9f1c2ab47d3e4f60a1b2c3d4e5f60718" "open the page" ready
  = (Ok {| id := "task-1700000000-9f1c2ab4"; prompt := "open the page"; actions := [];
           results := [failed "Invalid JSON response from OpenAI: Expecting value: line 1 column 1 (char 0)"];
           status := FAILED |},
     with_trace [PageContent] ready).
Proof.
  destruct (planning_failure_fails_task rendering_console
              (world obliging_driver (NotJson "Expecting value: line 1 column 1 (char 0)"))
              1700000000 "9f1c2ab47d3e4f60a1b2c3d4e5f60718" "open the page" ready
              (with_trace [PageContent] ready) "https://example.com/" (Some (VStr ""))
              (Exn ValueError
                 "Invalid JSON response from OpenAI: Expecting value: line 1 column 1 (char 0)"))
    as [Hrun _]; [reflexivity | reflexivity | reflexivity | reflexivity |].
  rewrite Hrun; [vm_compute; reflexivity | reflexivity | reflexivity].
Defined.

(** X14: on a controller without page the task reads no context (the URL is
    empty, the content absent, the driver is not asked).  If the plan holds
    an action the task fails on the first one: its single result carries the
    not-initialised error and the driver is never asked anything.  If the
    plan is empty the task ends completed.  This supposes that the lines
    shown on the way render: the task header, the plan, the first step and
    the not-initialised error. *)
Theorem task_without_page (emit : Logged.Output -> option exn) (w : World)
  (seconds : Z) (uuid_hex prompt : string) (st : State) :
  let task_id := _generate_task_id seconds uuid_hex in
  truthy (page st) = false ->
  emit (Logged.LogTaskStarted task_id prompt) = None ->
  emit (Logged.PrintProcessing prompt) = None ->
  Logged.page_context emit w st = (Ok ("", None), st)
  /\ (forall a acts,
        Logged.generate_web_actions emit (enum_contains w)
          (completion w (trace st) prompt "" None) = Ok (a :: acts) ->
        Logged.emit_all emit (Logged.planned 1 (a :: acts)) = None ->
        emit (Logged.PrintStep 1 a) = None ->
        emit (Logged.PrintTaskFailed "Browser not initialized") = None ->
        emit (Logged.LogTaskError task_id "Browser not initialized") = None ->
        Logged.execute_task emit w seconds uuid_hex prompt st
        = (Ok {| id := task_id; prompt := prompt;
                 actions := a :: acts;
                 results := [failed "Browser not initialized"]; status := FAILED |}, st))
  /\ (Logged.generate_web_actions emit (enum_contains w)
        (completion w (trace st) prompt "" None) = Ok [] ->
      Logged.execute_task emit w seconds uuid_hex prompt st
      = (Ok {| id := task_id; prompt := prompt;
               actions := []; results := []; status := COMPLETED |}, st)).
Proof.
  intros task_id. subst task_id. intros Hp Hstart Hshow.
  assert (Hctx : Logged.page_context emit w st = (Ok ("", None), st)).
  { unfold Logged.page_context, get_current_url. unfold_m. rewrite Hp. reflexivity. }
  split_and!; [exact Hctx | |].
  - intros a acts Hplan Hlines Hstep Hprint Hlog.
    unfold Logged.execute_task, Logged.attempt_task.
    cbn [Logged.emit_all set_status Commands.id Commands.prompt].
    rewrite Hstart, Hshow, Hctx, Hplan, Hlines.
    cbn [Logged.run_actions]. rewrite Hstep, logged_execute_action_outcomes, Hp.
    cbn [Logged.emit_all str_exn exn_msg set_actions set_status Commands.id].
    rewrite Hprint, Hlog. reflexivity.
  - intro Hplan. unfold Logged.execute_task, Logged.attempt_task.
    cbn [Logged.emit_all set_status Commands.id Commands.prompt].
    rewrite Hstart, Hshow, Hctx, Hplan. reflexivity.
Qed.

Lemma task_without_page_witness :
  Logged.execute_task rendering_console
    (world obliging_driver (Decoded [navigate_data; screenshot_data]))
    1700000000 "9f1c2ab47d3e4f60a1b2c3d4e5f60718" "open the page" init
  = (Ok {| id := "task-1700000000-9f1c2ab4"; prompt := "open the page";
           actions := [navigate_example; action SCREENSHOT];
           results := [failed "Browser not initialized"]; status := FAILED |}, init).
Proof.
  destruct (task_without_page rendering_console
              (world obliging_driver (Decoded [navigate_data; screenshot_data]))
              1700000000 "9f1c2ab47d3e4f60a1b2c3d4e5f60718" "open the page" init)
    as (_ & Hrun & _); [reflexivity | reflexivity | reflexivity |].
  rewrite (Hrun navigate_example [action SCREENSHOT]);
    [vm_compute; reflexivity | reflexivity | reflexivity | reflexivity | reflexivity
     | reflexivity].
Defined.



(** ** What the display and log calls cannot change *)

(** A display or log call either returns or raises; it changes neither what
    an operation returns nor what it does to the controller.  So whatever
    the functions with these calls return, the functions without them return
    as well, and the facts proved of returned plans, results and tasks carry
    over. *)

Lemma logged_execute_action_returns (emit : Logged.Output -> option exn) (w : World)
  (a : WebAction) (st st' : State) (r : CommandResult) :
  Logged.execute_action emit w a st = (Ok r, st') ->
  execute_action w a st = (Ok r, st').
Proof.
  rewrite logged_execute_action_outcomes.
  unfold execute_action, bind, get, try_except, raise, ret.
  destruct (truthy (page st)); cbn [negb]; [| discriminate].
  destruct (dispatch w a st) as [[r0|e] st0]; [auto |].
  destruct (emit _); [discriminate | auto].
Qed.

Lemma logged_execute_action_state (emit : Logged.Output -> option exn) (w : World)
  (a : WebAction) (st : State) :
  snd (Logged.execute_action emit w a st) = snd (execute_action w a st).
Proof.
  rewrite logged_execute_action_outcomes.
  unfold execute_action, bind, get, try_except, raise, ret.
  destruct (truthy (page st)); cbn [negb]; [| reflexivity].
  destruct (dispatch w a st) as [[r0|e] st0]; [reflexivity |].
  destruct (emit _); reflexivity.
Qed.

(** A successful result is returned with or without the log call: the call
    is made on the failure path only. *)
Lemma logged_execute_action_success (emit : Logged.Output -> option exn) (w : World)
  (a : WebAction) (st st' : State) (r : CommandResult) :
  execute_action w a st = (Ok r, st') -> success r = true ->
  Logged.execute_action emit w a st = (Ok r, st').
Proof.
  rewrite logged_execute_action_outcomes.
  unfold execute_action, bind, get, try_except, raise, ret.
  destruct (truthy (page st)); cbn [negb]; [| discriminate].
  destruct (dispatch w a st) as [[r0|e] st0]; [auto |].
  intro H. injection H as <- <-. discriminate.
Qed.

Lemma logged_validate_loop_returns (emit : Logged.Output -> option exn)
  (ec : EnumContains) (acts : list WebAction) :
  forall acc valid,
    Logged.validate_loop emit ec acts acc = Ok valid ->
    validate_loop ec acts acc = Ok valid.
Proof.
  induction acts as [|a acts IH]; intros acc valid;
    cbn [Logged.validate_loop validate_loop]; [auto |].
  destruct (_is_valid_action ec a) as [[|]|e]; [apply IH | | discriminate].
  destruct (emit _); [discriminate | apply IH].
Qed.

(** Every plan returned with the log calls is the plan returned without
    them. *)
Lemma logged_generate_returns (emit : Logged.Output -> option exn) (ec : EnumContains)
  (reply : Reply) (plan : list WebAction) :
  Logged.generate_web_actions emit ec reply = Ok plan ->
  generate_web_actions ec reply = Ok plan.
Proof.
  unfold Logged.generate_web_actions, generate_web_actions, Logged.generation_failed,
    Logged._validate_actions, _validate_actions.
  destruct reply as [e| |detail|items];
    try (destruct (emit _); discriminate).
  destruct (construct_all items) as [acts|e];
    [| destruct (emit _); discriminate].
  destruct (Logged.validate_loop emit ec acts []) as [valid|e] eqn:Hv;
    [| destruct (emit _); discriminate].
  intro H. injection H as <-.
  rewrite (logged_validate_loop_returns emit ec acts [] valid Hv). reflexivity.
Qed.

Lemma logged_run_actions_invariant (emit : Logged.Output -> option exn) (w : World)
  (acts : list WebAction) :
  forall (i : nat) (task task' : AutomationTask) (st st' : State) (oe : option exn),
    Logged.run_actions emit w i acts task st = (oe, task', st') ->
    continues st st'
    /\ exists rs, results task' = (results task ++ rs)%list
         /\ forall j r, rs !! j = Some r ->
              exists a, acts !! j = Some a /\ result_invariant (Some (type a)) r.
Proof.
  assert (Hnone : forall (task : AutomationTask),
             exists rs : list CommandResult,
               results task = (results task ++ rs)%list
               /\ forall j r, rs !! j = Some r ->
                    exists a, @nil WebAction !! j = Some a
                              /\ result_invariant (Some (type a)) r).
  { intro task. exists []. rewrite app_nil_r. split; [reflexivity |].
    intros j r Hj. rewrite lookup_nil in Hj. discriminate. }
  induction acts as [|a acts IH]; intros i task task' st st' oe;
    cbn [Logged.run_actions].
  - intro H. injection H as <- <- <-. split; [apply continues_refl | apply Hnone].
  - destruct (emit (Logged.PrintStep (S i) a)).
    { intro H. injection H as <- <- <-. split; [apply continues_refl |].
      destruct (Hnone task) as (rs & Hrs & _). exists []. rewrite app_nil_r.
      split; [reflexivity |]. intros j r Hj. rewrite lookup_nil in Hj. discriminate. }
    pose proof (steady_execute_action w a st) as Hstep.
    rewrite <- logged_execute_action_state with (emit := emit) in Hstep.
    destruct (Logged.execute_action emit w a st) as [[r|e] st1] eqn:Hrun;
      cbn [snd] in Hstep.
    2:{ intro H. injection H as <- <- <-. split; [exact Hstep |].
        exists []. rewrite app_nil_r.
        split; [reflexivity |]. intros j r Hj. rewrite lookup_nil in Hj. discriminate. }
    apply logged_execute_action_returns in Hrun.
    pose proof (execute_action_invariant w a st st1 r Hrun) as Hr.
    destruct (Logged.emit_all emit _).
    + intro H. injection H as <- <- <-. split; [exact Hstep |].
      exists [r]. split; [reflexivity |].
      intros [|j] r' Hj; cbn in Hj.
      * injection Hj as <-. exists a. split; [reflexivity | exact Hr].
      * try rewrite lookup_nil in Hj. discriminate.
    + intro H. apply IH in H as (Hcont & rs & Hrs & Hinv).
      split.
      * eapply continues_trans; [exact Hstep |].
        eapply continues_trans; [apply continues_log_call | exact Hcont].
      * cbn [append_result results] in Hrs.
        exists (r :: rs). split; [rewrite Hrs, <- app_assoc; reflexivity |].
        intros [|j] r' Hj; cbn in Hj.
        -- injection Hj as <-. exists a. split; [reflexivity | exact Hr].
        -- destruct (Hinv j r' Hj) as (a' & Ha' & Hr'). eauto.
Qed.

Lemma logged_page_context_continues (emit : Logged.Output -> option exn) (w : World)
  (st : State) :
  continues st (snd (Logged.page_context emit w st)).
Proof.
  unfold Logged.page_context, Logged.get_page_content, get_current_url, Logged.announce.
  unfold_m.
  destruct (truthy (page st)) eqn:Hp; cbn [negb]; [| apply continues_refl].
  destruct (negb (String.eqb (page_url w (trace st)) "")); [| apply continues_refl].
  rewrite Hp. cbn [negb].
  destruct (respond w (trace st) PageContent) as [v|e];
    [apply continues_log_call |].
  destruct (emit _); apply continues_log_call.
Qed.

(** What holds of every run of [execute_task] with its display and log
    calls, whether it returns a task or not: the controller keeps its three
    handles and its record of driver operations only grows; and when a task
    is returned, each of its results carries an error text only when it is
    not successful, and names a saved image only when it is the successful
    result of a screenshot action of the same index. *)
Lemma logged_task_is_well_formed (emit : Logged.Output -> option exn) (w : World)
  (seconds : Z) (uuid_hex prompt : string) (st : State) :
  continues st (snd (Logged.execute_task emit w seconds uuid_hex prompt st))
  /\ forall task i r,
       fst (Logged.execute_task emit w seconds uuid_hex prompt st) = Ok task ->
       results task !! i = Some r ->
       result_invariant (type <$> (actions task !! i)) r.
Proof.
  unfold Logged.execute_task.
  destruct (Logged.attempt_task emit w _ st) as [[oe task1] st1] eqn:Hatt.
  assert (Hshape : continues st st1
            /\ exists rs, results task1 = rs
                 /\ forall j r, rs !! j = Some r ->
                      exists a, actions task1 !! j = Some a
                                /\ result_invariant (Some (type a)) r).
  { revert Hatt. unfold Logged.attempt_task.
    assert (Hnone : forall acts : list WebAction,
               exists rs : list CommandResult,
                 [] = rs /\ forall j r, rs !! j = Some r ->
                          exists a, acts !! j = Some a
                                    /\ result_invariant (Some (type a)) r).
    { intro acts. exists []. split; [reflexivity |].
      intros j r Hj. rewrite lookup_nil in Hj. discriminate. }
    destruct (Logged.emit_all emit _).
    { intro H. injection H as <- <- <-. split; [apply continues_refl | apply Hnone]. }
    pose proof (logged_page_context_continues emit w st) as Hctx.
    destruct (Logged.page_context emit w st) as [[[current_url content]|e] st0];
      cbn [snd] in Hctx.
    2:{ intro H. injection H as <- <- <-. split; [exact Hctx | apply Hnone]. }
    destruct (Logged.generate_web_actions emit _ _) as [acts|e].
    2:{ intro H. injection H as <- <- <-. split; [exact Hctx | apply Hnone]. }
    destruct (Logged.emit_all emit _).
    { intro H. injection H as <- <- <-. split; [exact Hctx | apply Hnone]. }
    destruct (Logged.run_actions emit w 0 acts _ st0) as [[oe' task2] st2] eqn:Hloop.
    pose proof (logged_run_actions_keeps emit w acts _ _ _ _ _ _ Hloop)
      as (_ & _ & Hac & _).
    apply logged_run_actions_invariant in Hloop as (Hcont & rs & Hrs & Hinv).
    cbn [set_actions set_status actions results app] in Hac, Hrs.
    destruct oe'; intro H; injection H as <- <- <-;
      (split; [eapply continues_trans; eassumption |]);
      cbn [set_status actions results]; rewrite Hac; exists rs; split; auto. }
  destruct Hshape as (Hcont & rs & Hrs & Hinv).
  destruct oe as [e|].
  - destruct (Logged.emit_all emit _); cbn [fst snd]; (split; [exact Hcont |]);
      intros task i r Htask; [discriminate |].
    injection Htask as <-.
    destruct (task_failed_results e task1) as [-> ->]. rewrite Hrs.
    intro Hi. destruct (lookup_app_Some rs [failed (str_exn e)] i r) as [Hcases _].
    destruct (Hcases Hi) as [Hin | [_ Hlast]].
    + destruct (Hinv i r Hin) as (a & Ha & Hr). rewrite Ha. exact Hr.
    + destruct (i - length rs)%nat; cbn in Hlast;
        [| try rewrite lookup_nil in Hlast; discriminate].
      injection Hlast as <-. apply failed_invariant.
  - cbn [fst snd]. split; [exact Hcont |].
    intros task i r Htask. injection Htask as <-. rewrite Hrs.
    intro Hi. destruct (Hinv i r Hi) as (a & Ha & Hr). rewrite Ha. exact Hr.
Qed.

(** A plan that comes back empty runs no action, and the task ends
    completed, with the display and log calls as without them. *)
Lemma logged_empty_plan_completed (emit : Logged.Output -> option exn) (w : World)
  (seconds : Z) (uuid_hex prompt : string)
  (st st1 : State) (current_url : string) (content : option PyVal) :
  emit (Logged.LogTaskStarted (_generate_task_id seconds uuid_hex) prompt) = None ->
  emit (Logged.PrintProcessing prompt) = None ->
  Logged.page_context emit w st = (Ok (current_url, content), st1) ->
  Logged.generate_web_actions emit (enum_contains w)
    (completion w (trace st1) prompt current_url content) = Ok [] ->
  Logged.execute_task emit w seconds uuid_hex prompt st
  = (Ok {| id := _generate_task_id seconds uuid_hex; prompt := prompt;
           actions := []; results := []; status := COMPLETED |}, st1).
Proof.
  intros Hstart Hshow Hctx Hplan.
  unfold Logged.execute_task, Logged.attempt_task.
  cbn [Logged.emit_all set_status Commands.id Commands.prompt].
  rewrite Hstart, Hshow, Hctx, Hplan. reflexivity.
Qed.

(** ** Task identifiers *)

Lemma string_length_append (a b : string) :
  String.length (a +:+ b) = (String.length a + String.length b)%nat.
Proof.
  induction a as [|c a IH]; [reflexivity |].
  change (String c a +:+ b) with (String c (a +:+ b)).
  cbn [String.length]. rewrite IH. reflexivity.
Qed.

Lemma append_inj_same_length (a a' b b' : string) :
  a +:+ b = a' +:+ b' -> String.length a = String.length a' -> a = a' /\ b = b'.
Proof.
  revert a'. induction a as [|c a IH]; intros [|c' a'] H Hlen; cbn in *;
    try discriminate.
  - auto.
  - injection H as -> H. injection Hlen as Hlen.
    destruct (IH a' H Hlen) as [-> ->]. auto.
Qed.

Lemma substring_prefix_length (n : nat) (s : string) :
  (n <= String.length s)%nat -> String.length (String.substring 0 n s) = n.
Proof.
  revert s. induction n as [|n IH]; intros s Hn.
  - destruct s; reflexivity.
  - destruct s as [|c s]; cbn in *; [lia |]. rewrite IH; [reflexivity | lia].
Qed.

(** X16: a task id starts with [task-] and ends with the first eight
    characters of the random text.  Two ids made from random texts of at
    least eight characters are equal only if they were made in the same
    second from texts with the same first eight characters: within one
    second, differing random prefixes give differing ids. *)
Theorem task_ids_tell_tasks_apart (seconds seconds' : Z) (uuid_hex uuid_hex' : string) :
  (8 <= String.length uuid_hex)%nat -> (8 <= String.length uuid_hex')%nat ->
  PyStr.startswith "task-" (_generate_task_id seconds uuid_hex) = true
  /\ String.length (_generate_task_id seconds uuid_hex)
     = (14 + String.length (pretty seconds))%nat
  /\ (_generate_task_id seconds uuid_hex = _generate_task_id seconds' uuid_hex'
      <-> seconds = seconds'
          /\ String.substring 0 8 uuid_hex = String.substring 0 8 uuid_hex').
Proof.
  intros Hu Hu'. unfold _generate_task_id.
  pose proof (substring_prefix_length 8 uuid_hex Hu) as Hl.
  pose proof (substring_prefix_length 8 uuid_hex' Hu') as Hl'.
  split_and!.
  - apply startswith_append.
  - rewrite !string_length_append, Hl. cbn. lia.
  - split.
    + intro H. apply (inj (String.append "task-")) in H.
      assert (Hlen : String.length (pretty seconds) = String.length (pretty seconds')).
      { apply (f_equal String.length) in H.
        rewrite !string_length_append, Hl, Hl' in H. cbn in H. lia. }
      apply append_inj_same_length in H as [Hp Hrest]; [| exact Hlen].
      apply (inj pretty) in Hp. apply (inj (String.append "-")) in Hrest. auto.
    + intros [-> ->]. reflexivity.
Qed.

Lemma task_ids_tell_tasks_apart_witness :
  _generate_task_id 1700000000 "9f1c2ab47d3e4f60a1b2c3d4e5f60718"
  <> _generate_task_id 1700000000 "0a1c2ab47d3e4f60a1b2c3d4e5f60718".
Proof.
  intro H.
  destruct (task_ids_tell_tasks_apart 1700000000 1700000000
              "9f1c2ab47d3e4f60a1b2c3d4e5f60718" "0a1c2ab47d3e4f60a1b2c3d4e5f60718")
    as (_ & _ & [Hsame _]); [cbn; lia | cbn; lia |].
  destruct (Hsame H) as [_ Hprefix]. discriminate Hprefix.
Defined.

(** ** The system prompt (llm_client.py) *)

Module Prompt.
Import Commands.

(** The double quote and the line feed, as one character texts *)
Definition q : string := String PyStr.dquote EmptyString.
Definition nl : string := String (ascii_of_nat 10) EmptyString.

(** The text of [base_prompt]; [q] stands where the source has a double
    quote. *)
Definition base_prompt : string :=
  "You are a web automation assistant. Convert user requests into a sequence of web actions.

Available actions:
- navigate: Go to a URL (requires: url)
- click: Click an element (requires: selector). The selector may be a Playwright selector: CSS (preferred), or fallback engines like " +:+ q +:+
  "text=..." +:+ q +:+
  " or " +:+ q +:+
  "xpath=..." +:+ q +:+
  ".
- type: Type text into an input field (requires: selector, text)
- scroll: Scroll the page (requires: scroll_direction - " +:+ q +:+
  "up" +:+ q +:+
  " or " +:+ q +:+
  "down" +:+ q +:+
  ")
- wait: Wait for a specified time in milliseconds (requires: wait_time)
- screenshot: Take a screenshot
- extract: Extract content from page (requires: extract_type - " +:+ q +:+
  "text" +:+ q +:+
  ", " +:+ q +:+
  "html" +:+ q +:+
  ", or " +:+ q +:+
  "links" +:+ q +:+
  ", optional: selector)

IMPORTANT RULES:
1. Use DOM-aware, stable selectors derived from the provided HTML DOM. Prefer IDs (#id), data-testid/data-test attributes, names, aria-labels, and roles before generic classes or element types.
   - If a reliable CSS selector is not possible, use Playwright engines: text=Exact Button Text, or xpath=//...
2. Always include a screenshot action at the end to show the result
3. Be conservative with wait times - use 1000-3000ms typically
4. For navigation, ensure URLs start https://

Response format: Return ONLY a JSON array of actions, no other text.

Example response:
[
  {" +:+ q +:+
  "type" +:+ q +:+
  ": " +:+ q +:+
  "navigate" +:+ q +:+
  ", " +:+ q +:+
  "url" +:+ q +:+
  ": " +:+ q +:+
  "https://example.com" +:+ q +:+
  "},
  {" +:+ q +:+
  "type" +:+ q +:+
  ": " +:+ q +:+
  "wait" +:+ q +:+
  ", " +:+ q +:+
  "wait_time" +:+ q +:+
  ": 2000},
  {" +:+ q +:+
  "type" +:+ q +:+
  ": " +:+ q +:+
  "click" +:+ q +:+
  ", " +:+ q +:+
  "selector" +:+ q +:+
  ": " +:+ q +:+
  "#search-button" +:+ q +:+
  "},
  {" +:+ q +:+
  "type" +:+ q +:+
  ": " +:+ q +:+
  "screenshot" +:+ q +:+
  "}
]".

(** [page_content[:4000] + "..." if len(page_content) > 4000 else page_content] *)
Definition preview (page_content : string) : string :=
  if (4000 <? String.length page_content)%nat
  then String.substring 0 4000 page_content +:+ "..."
  else page_content.

(** [_build_system_prompt] *)
Definition _build_system_prompt (current_url page_content : option string) : string :=
  let context_info :=
    ((match current_url with
      | Some u => if truthy_str current_url then ["Current URL: " +:+ u] else []
      | None => []
      end) ++
     (match page_content with
      | Some c =>
          if truthy_str page_content then ["Page content preview: " +:+ preview c] else []
      | None => []
      end))%list in
  match context_info with
  | [] => base_prompt
  | _ => base_prompt +:+ (nl +:+ nl +:+ "Current context:" +:+ nl)
         +:+ PyStr.join nl context_info
  end.

End Prompt.

Lemma substring_prefix_length_le (n : nat) (s : string) :
  (String.length (String.substring 0 n s) <= n)%nat.
Proof.
  revert s. induction n as [|n IH]; intros s.
  - destruct s; cbn; lia.
  - destruct s as [|c s]; cbn; [lia |]. specialize (IH s). lia.
Qed.

Lemma preview_length (c : string) :
  (String.length (Prompt.preview c) <= 4003)%nat
  /\ (String.length (Prompt.preview c) <= String.length c + 3)%nat.
Proof.
  unfold Prompt.preview.
  destruct (Nat.ltb_spec 4000 (String.length c)) as [Hlong | Hshort].
  - rewrite string_length_append.
    pose proof (substring_prefix_length_le 4000 c) as Hle.
    change (String.length "...") with 3%nat. lia.
  - lia.
Qed.

Lemma falsy_str_empty (s : string) : truthy_str (Some s) = false -> s = "".
Proof. cbn. destruct (String.eqb_spec s ""); [auto | discriminate]. Qed.

Lemma prefix_same (s : string) : String.prefix s s = true.
Proof.
  induction s as [|c s IH]; [reflexivity |].
  cbn [String.prefix]. destruct (ascii_dec c c); [exact IH | congruence].
Qed.

Lemma append_assoc_string (a b c : string) : (a +:+ b) +:+ c = a +:+ (b +:+ c).
Proof.
  induction a as [|x a IH]; [reflexivity |].
  change (String x a +:+ b) with (String x (a +:+ b)).
  change (String x (a +:+ b) +:+ c) with (String x ((a +:+ b) +:+ c)).
  rewrite IH. reflexivity.
Qed.

(** X17: the system prompt always opens with the fixed instructions and is
    exactly those when there is no URL and no page content.  Page content of
    up to 4000 characters closes the prompt in full; longer content is cut
    to its first 4000 characters followed by three dots.  So the prompt is
    never longer than the fixed instructions, the URL and 4058 characters
    more. *)
Theorem system_prompt_bounds_page_content (current_url page_content : option string) :
  PyStr.startswith Prompt.base_prompt
    (Prompt._build_system_prompt current_url page_content) = true
  /\ (truthy_str current_url = false -> truthy_str page_content = false ->
      Prompt._build_system_prompt current_url page_content = Prompt.base_prompt)
  /\ (forall c, page_content = Some c -> c <> "" ->
      (String.length c <= 4000)%nat ->
      exists head, Prompt._build_system_prompt current_url page_content
                   = head +:+ ("Page content preview: " +:+ c))
  /\ (forall c, page_content = Some c ->
      (4000 < String.length c)%nat ->
      exists head, Prompt._build_system_prompt current_url page_content
                   = head +:+ ("Page content preview: "
                               +:+ (String.substring 0 4000 c +:+ "...")))
  /\ (String.length (Prompt._build_system_prompt current_url page_content)
      <= String.length Prompt.base_prompt
         + String.length (default "" current_url) + 4058)%nat.
Proof.
  assert (Hthree : String.length "..." = 3%nat) by reflexivity.
  assert (Hintro : String.length (Prompt.nl +:+ Prompt.nl +:+ "Current context:" +:+ Prompt.nl)
                   = 19%nat) by reflexivity.
  assert (Hurl : String.length "Current URL: " = 13%nat) by reflexivity.
  assert (Hpage : String.length "Page content preview: " = 22%nat) by reflexivity.
  assert (Hnl : String.length Prompt.nl = 1%nat) by reflexivity.
  unfold Prompt._build_system_prompt.
  set (intro := Prompt.nl +:+ Prompt.nl +:+ "Current context:" +:+ Prompt.nl) in *.
  set (url_label := "Current URL: ") in *.
  set (page_label := "Page content preview: ") in *.
  destruct current_url as [u|]; [destruct (truthy_str (Some u)) eqn:Hu |];
    (destruct page_content as [c|]; [destruct (truthy_str (Some c)) eqn:Hc |]);
    cbn [app PyStr.join String.concat default].
  all: split_and!.
  (* the prompt opens with the fixed instructions *)
  all: try (apply prefix_append).
  all: try (apply prefix_same).
  (* without context *)
  all: try (intros; first [reflexivity | discriminate]).
  (* content kept whole *)
  all: try (intros c' Hc' Hne Hlen; injection Hc' as <-;
            first [ exfalso; apply Hne; apply falsy_str_empty; exact Hc
                  | unfold Prompt.preview;
                    destruct (Nat.ltb_spec 4000 (String.length c)); [lia |];
                    first [ exists (Prompt.base_prompt +:+ intro
                                    +:+ (url_label +:+ u) +:+ Prompt.nl);
                            rewrite !append_assoc_string; reflexivity
                          | exists (Prompt.base_prompt +:+ intro);
                            rewrite !append_assoc_string; reflexivity ] ]).
  (* content cut *)
  all: try (intros c' Hc' Hlen; injection Hc' as <-;
            first [ exfalso; rewrite (falsy_str_empty c Hc) in Hlen; cbn in Hlen; lia
                  | unfold Prompt.preview;
                    destruct (Nat.ltb_spec 4000 (String.length c)); [| lia];
                    first [ exists (Prompt.base_prompt +:+ intro
                                    +:+ (url_label +:+ u) +:+ Prompt.nl);
                            rewrite !append_assoc_string; reflexivity
                          | exists (Prompt.base_prompt +:+ intro);
                            rewrite !append_assoc_string; reflexivity ] ]).
  (* the bound *)
  all: unfold Datatypes.id;
       rewrite ?string_length_append, ?Hintro, ?Hurl, ?Hpage, ?Hnl;
       cbn [String.length];
       try pose proof (proj1 (preview_length c)); lia.
Qed.

Lemma system_prompt_bounds_page_content_witness :
  Prompt._build_system_prompt (Some "") None = Prompt.base_prompt
  /\ exists head,
       Prompt._build_system_prompt (Some "https://example.com/") (Some "<html></html>")
       = head +:+ ("Page content preview: " +:+ "<html></html>").
Proof.
  destruct (system_prompt_bounds_page_content (Some "") None) as (_ & Hbase & _).
  split; [apply Hbase; reflexivity |].
  destruct (system_prompt_bounds_page_content (Some "https://example.com/")
              (Some "<html></html>")) as (_ & _ & Hwhole & _).
  apply Hwhole; [reflexivity | discriminate | cbn; lia].
Defined.

(** ** Describing a result (command_parser.py) *)

Module Display.
Import Commands.

Definition upper_ascii (c : ascii) : ascii :=
  let n := N_of_ascii c in
  if ((97 <=? n) && (n <=? 122))%N then ascii_of_N (n - 32) else c.

Definition lower_ascii (c : ascii) : ascii :=
  let n := N_of_ascii c in
  if ((65 <=? n) && (n <=? 90))%N then ascii_of_N (n + 32) else c.

Fixpoint map_string (f : ascii -> ascii) (s : string) : string :=
  match s with
  | EmptyString => EmptyString
  | String c rest => String (f c) (map_string f rest)
  end.

(** [s.capitalize()], on ASCII letters *)
Definition capitalize (s : string) : string :=
  match s with
  | EmptyString => EmptyString
  | String c rest => String (upper_ascii c) (map_string lower_ascii rest)
  end.

Section Describe.
(** The text of the values the model does not spell out itself (lists,
    dictionaries, handles), and the name of a value's class. *)
Variable render : PyVal -> string.
Variable class_name : PyVal -> string.

(** A value inside a formatted text *)
Definition format_value (v : PyVal) : string :=
  match v with
  | VStr s => s
  | VInt z => pretty z
  | VNone => "None"
  | VBool true => "True"
  | VBool false => "False"
  | _ => render v
  end.

(** [v.capitalize()]: only text has the method *)
Definition capitalize_value (v : PyVal) : Exc string :=
  match v with
  | VStr s => Ok (capitalize s)
  | _ => Raise (Exn AttributeError
                  ("'" +:+ class_name v +:+ "' object has no attribute 'capitalize'"))
  end.

(** [_format_result_description] *)
Definition _format_result_description (result : CommandResult) : Exc string :=
  match data result with
  | None => Ok "Action completed"
  | Some d =>
      if (size d =? 0)%nat then Ok "Action completed"
      else
        match d !! "url" with
        | Some v => Ok ("Now at " +:+ format_value v)
        | None =>
        match d !! "action" with
        | Some v => capitalize_value v
        | None =>
        match d !! "filename" with
        | Some v => Ok ("Screenshot: " +:+ format_value v)
        | None =>
        match d !! "extract_type" with
        | Some v => Ok ("Extracted " +:+ format_value v)
        | None =>
        match d !! "wait_time" with
        | Some v => Ok ("Waited " +:+ format_value v +:+ "ms")
        | None =>
        match d !! "scroll_amount" with
        | Some v => Ok ("Scrolled " +:+ format_value v +:+ "px")
        | None => Ok "Action completed"
        end end end end end end
  end.

End Describe.
End Display.

(** What the description of the result of an action of type [t] reads *)
Definition described (render class_name : PyVal -> string) (t : ActionType)
  (r : CommandResult) : Prop :=
  exists text,
    Display._format_result_description render class_name r = Ok text
    /\ match t with
       | NAVIGATE => exists u, text = "Now at " +:+ u
       | CLICK => text = "Clicked"
       | TYPE => text = "Typed"
       | SCROLL => text = "Scrolled 500px" \/ text = "Scrolled -500px"
       | WAIT => exists ms : Z, text = "Waited " +:+ pretty ms +:+ "ms"
       | SCREENSHOT => exists filename, text = "Screenshot: " +:+ filename
       | EXTRACT =>
           text = "Extracted text" \/ text = "Extracted html" \/ text = "Extracted links"
       end.

Ltac returns_binds := repeat (apply returns_bind; intro).

Lemma dispatch_returns_described (render class_name : PyVal -> string) (w : World)
  (a : WebAction) :
  returns (described render class_name (type a)) (dispatch w a).
Proof.
  unfold dispatch, described.
  destruct (type a).
  - unfold _navigate. destruct (url a) as [u|]; [| apply returns_raise].
    returns_binds. apply returns_ret.
    eexists. split; [vm_compute; reflexivity | eauto].
  - unfold _click. returns_binds. apply returns_ret.
    eexists. split; [vm_compute; reflexivity | reflexivity].
  - unfold _type. returns_binds. apply returns_ret.
    eexists. split; [vm_compute; reflexivity | reflexivity].
  - unfold _scroll. destruct (scroll_direction a) as [[|]|];
      returns_binds; apply returns_ret;
      (eexists; split; [vm_compute; reflexivity | auto]).
  - unfold _wait. returns_binds. apply returns_ret.
    match goal with
    | |- context [VInt ?ms] =>
        exists ("Waited " +:+ pretty ms +:+ "ms"); split; [| eauto]
    end.
    unfold Display._format_result_description. cbn [data succeeded].
    vm_compute. reflexivity.
  - unfold _screenshot. returns_binds. apply returns_ret.
    eexists. split; [vm_compute; reflexivity | eauto].
  - unfold _extract. destruct (extract_type a) as [[| |]|];
      returns_binds; apply returns_ret;
      (eexists; split; [vm_compute; reflexivity | auto]).
Qed.

(** X18: the description shown for a successful result follows the type of
    its action: a navigation reads "Now at" with the page's URL (its
    [navigated] marker is never shown), a click "Clicked", a typing "Typed",
    a scroll "Scrolled 500px" or "Scrolled -500px", a wait "Waited" with its
    milliseconds, a screenshot its file name, an extraction its kind.  A
    failed result, which has no data, reads "Action completed". *)
Theorem results_get_their_description (render class_name : PyVal -> string) (w : World)
  (a : WebAction) (st st' : State) (r : CommandResult) :
  dispatch w a st = (Ok r, st') ->
  described render class_name (type a) r
  /\ forall message,
       Display._format_result_description render class_name (failed message)
       = Ok "Action completed".
Proof.
  intro Hrun. split; [| reflexivity].
  exact (dispatch_returns_described render class_name w a st r st' Hrun).
Qed.

Lemma results_get_their_description_witness :
  described (fun _ => "") (fun _ => "") NAVIGATE
    (succeeded {[ "url" := VStr "https://example.com/"; "action" := VStr "navigated" ]} None).
Proof.
  apply (proj1 (results_get_their_description (fun _ => "") (fun _ => "")
                  (world obliging_driver NoContent) navigate_example ready
                  (with_trace [PageGoto "https://example.com" "networkidle"] ready)
                  (succeeded {[ "url" := VStr "https://example.com/";
                                "action" := VStr "navigated" ]} None)
                  eq_refl)).
Defined.

(** ** The interactive loop (main.py) *)

Module Main.

Fixpoint all_chars (p : ascii -> bool) (s : string) : bool :=
  match s with
  | EmptyString => true
  | String c rest => p c && all_chars p rest
  end.

(** [s.isspace()]: some character, and white space only *)
Definition isspace (s : string) : bool :=
  negb (String.eqb s "") && all_chars PyStr.isspace s.

(** [s.lower()], on ASCII letters.  The other characters it would change
    are letters outside ASCII and stay outside it, so no comparison with an
    ASCII word depends on them. *)
Definition lower (s : string) : string := Display.map_string Display.lower_ascii s.

(** What one line of input leads to *)
Inductive Turn :=
| Ignore                    (* asked again *)
| Quit                      (* the loop ends *)
| Help                      (* the help text is shown, then asked again *)
| Task (prompt : string).   (* the line is executed as a task *)

(** The body of the loop of [run_interactive], up to the decision *)
Definition interpret (prompt : string) : Turn :=
  if String.eqb prompt "" || isspace prompt then Ignore
  else
    let command := lower (PyStr.strip prompt) in
    if existsb (String.eqb command) ["exit"; "quit"; "q"] then Quit
    else if String.eqb command "help" then Help
    else Task prompt.

Section Loop.
(** The state the tasks act on; what executing one prompt does (the call of
    [execute_task]: the exception that left it, if any, and the state it
    left); and what the line that shows such an exception does (it may
    raise in its turn, while rendering the text). *)
Variable S : Type.
Variable execute : string -> S -> option exn * S.
Variable show_error : exn -> option exn.

(** [run_interactive] on the lines the user enters, the end of the list
    being the end of input.  The running flag stays set and no interrupt
    arrives.  An exception that leaves [execute_task] is shown and the loop
    goes on; when showing it raises, that exception leaves the loop.  The
    result is the prompts handed to [execute_task], in order, the exception
    that ended the loop, if any, and the final state. *)
Fixpoint run_interactive (inputs : list string) (st : S)
  : list string * option exn * S :=
  match inputs with
  | [] => ([], None, st)
  | line :: rest =>
      match interpret line with
      | Ignore => run_interactive rest st
      | Help => run_interactive rest st
      | Quit => ([], None, st)
      | Task prompt =>
          let '(failure, st') := execute prompt st in
          match match failure with
                | Some e => show_error e
                | None => None
                end with
          | Some raised => ([prompt], Some raised, st')
          | None =>
              let '(done, ended, st'') := run_interactive rest st' in
              (prompt :: done, ended, st'')
          end
      end
  end.

End Loop.
End Main.

Lemma isspace_lower (c : ascii) :
  PyStr.isspace (Display.lower_ascii c) = PyStr.isspace c.
Proof. destruct c as [[] [] [] [] [] [] [] []]; reflexivity. Qed.

Lemma all_chars_append (p : ascii -> bool) (a b : string) :
  Main.all_chars p (a +:+ b) = Main.all_chars p a && Main.all_chars p b.
Proof.
  induction a as [|c a IH]; [reflexivity |].
  change (String c a +:+ b) with (String c (a +:+ b)).
  cbn [Main.all_chars]. rewrite IH, andb_assoc. reflexivity.
Qed.

Lemma lstrip_dropped_prefix (drop : ascii -> bool) (pre s : string) :
  Main.all_chars drop pre = true ->
  PyStr.lstrip_by drop (pre +:+ s) = PyStr.lstrip_by drop s.
Proof.
  induction pre as [|c pre IH]; [reflexivity |].
  change (String c pre +:+ s) with (String c (pre +:+ s)).
  cbn [Main.all_chars PyStr.lstrip_by]. intro H. apply andb_prop in H as [Hc Hpre].
  rewrite Hc. exact (IH Hpre).
Qed.

Lemma rstrip_all_dropped (drop : ascii -> bool) (post : string) :
  Main.all_chars drop post = true -> PyStr.rstrip_by drop post = "".
Proof.
  induction post as [|c post IH]; [reflexivity |].
  cbn [Main.all_chars PyStr.rstrip_by]. intro H. apply andb_prop in H as [Hc Hpost].
  rewrite (IH Hpost), Hc. reflexivity.
Qed.

(** A text that is not empty and whose last character is kept *)
Fixpoint ends_kept (drop : ascii -> bool) (s : string) : bool :=
  match s with
  | EmptyString => false
  | String c EmptyString => negb (drop c)
  | String _ rest => ends_kept drop rest
  end.

Lemma rstrip_kept_core (drop : ascii -> bool) (core post : string) :
  ends_kept drop core = true -> Main.all_chars drop post = true ->
  PyStr.rstrip_by drop (core +:+ post) = core.
Proof.
  intros Hcore Hpost.
  induction core as [|c core IH]; [discriminate |].
  change (String c core +:+ post) with (String c (core +:+ post)).
  cbn [PyStr.rstrip_by].
  destruct core as [|c' core].
  - change ("" +:+ post) with post. rewrite (rstrip_all_dropped drop post Hpost).
    cbn in Hcore. destruct (drop c); [discriminate | reflexivity].
  - rewrite IH; [reflexivity | exact Hcore].
Qed.

Lemma strip_padded (drop : ascii -> bool) (pre core post : string) (c : ascii)
  (rest : string) :
  core = String c rest -> drop c = false -> ends_kept drop core = true ->
  Main.all_chars drop pre = true -> Main.all_chars drop post = true ->
  PyStr.strip_by drop (pre +:+ core +:+ post) = core.
Proof.
  intros -> Hc Hend Hpre Hpost. unfold PyStr.strip_by.
  rewrite (lstrip_dropped_prefix drop pre _ Hpre).
  change (String c rest +:+ post) with (String c (rest +:+ post)).
  cbn [PyStr.lstrip_by]. rewrite Hc.
  change (String c (rest +:+ post)) with (String c rest +:+ post).
  apply rstrip_kept_core; assumption.
Qed.

Lemma no_space_lower (s : string) :
  Main.all_chars (fun c => negb (PyStr.isspace c)) (Main.lower s)
  = Main.all_chars (fun c => negb (PyStr.isspace c)) s.
Proof.
  induction s as [|c s IH]; [reflexivity |].
  cbn [Main.lower Display.map_string Main.all_chars].
  rewrite isspace_lower. f_equal. exact IH.
Qed.

Lemma no_space_ends_kept (s : string) :
  s <> "" -> Main.all_chars (fun c => negb (PyStr.isspace c)) s = true ->
  ends_kept PyStr.isspace s = true.
Proof.
  induction s as [|c s IH]; [congruence |]. intros _ H.
  cbn [Main.all_chars] in H. apply andb_prop in H as [Hc Hs].
  destruct s as [|c' s]; [exact Hc |].
  change (ends_kept PyStr.isspace (String c' s) = true). apply IH; [discriminate | exact Hs].
Qed.

Lemma lower_nonempty (s : string) : Main.lower s <> "" -> s <> "".
Proof. intros H ->. apply H. reflexivity. Qed.

(** A reserved word surrounded by white space is read as the word alone. *)
Lemma command_of_padded_word (pre word post : string) :
  Main.all_chars PyStr.isspace pre = true ->
  Main.all_chars PyStr.isspace post = true ->
  Main.lower word <> "" ->
  Main.all_chars (fun c => negb (PyStr.isspace c)) (Main.lower word) = true ->
  PyStr.strip (pre +:+ word +:+ post) = word
  /\ (String.eqb (pre +:+ word +:+ post) ""
      || Main.isspace (pre +:+ word +:+ post)) = false.
Proof.
  intros Hpre Hpost Hne Hclean.
  rewrite no_space_lower in Hclean. apply lower_nonempty in Hne.
  destruct word as [|c rest] eqn:Hword; [congruence |]. rewrite <- Hword in *.
  assert (Hc : PyStr.isspace c = false).
  { rewrite Hword in Hclean. cbn [Main.all_chars] in Hclean.
    apply andb_prop in Hclean as [Hc _]. destruct (PyStr.isspace c); [discriminate | auto]. }
  split.
  - unfold PyStr.strip.
    apply (strip_padded PyStr.isspace pre word post c rest Hword Hc);
      [apply no_space_ends_kept; assumption | assumption | assumption].
  - unfold Main.isspace. rewrite !all_chars_append.
    assert (Hw : Main.all_chars PyStr.isspace word = false).
    { rewrite Hword. cbn [Main.all_chars]. rewrite Hc. reflexivity. }
    rewrite Hw, andb_false_l, andb_false_r, andb_false_r, orb_false_r.
    apply String.eqb_neq. intro H.
    apply (f_equal String.length) in H. rewrite !string_length_append, Hword in H.
    cbn in H. lia.
Qed.

(** X19: the reserved words of the interactive loop are recognised in any
    letter case and with any white space around them: exit, quit and q end
    the loop, help shows the help text; such a line is never executed as a
    task. *)
Theorem reserved_words_any_case_and_padding (pre word post : string) :
  Main.all_chars PyStr.isspace pre = true ->
  Main.all_chars PyStr.isspace post = true ->
  (In (Main.lower word) ["exit"; "quit"; "q"] ->
   Main.interpret (pre +:+ word +:+ post) = Main.Quit)
  /\ (Main.lower word = "help" ->
      Main.interpret (pre +:+ word +:+ post) = Main.Help).
Proof.
  intros Hpre Hpost.
  assert (Hrun : forall w, In w ["exit"; "quit"; "q"; "help"] -> Main.lower word = w ->
            Main.interpret (pre +:+ word +:+ post)
            = if existsb (String.eqb w) ["exit"; "quit"; "q"] then Main.Quit
              else Main.Help).
  { intros w Hin Hw.
    destruct Hin as [<- | [<- | [<- | [<- | []]]]];
      (destruct (command_of_padded_word pre word post Hpre Hpost) as [Hstrip Hblank];
       [ rewrite Hw; discriminate
       | rewrite Hw; reflexivity
       | unfold Main.interpret; rewrite Hblank, Hstrip, Hw; reflexivity ]). }
  split.
  - intro Hin. rewrite (Hrun (Main.lower word)); [| cbn in *; tauto | reflexivity].
    destruct Hin as [<- | [<- | [<- | []]]]; reflexivity.
  - intro Hh. rewrite (Hrun "help"); [reflexivity | cbn; tauto | exact Hh].
Qed.

Lemma reserved_words_any_case_and_padding_witness :
  Main.interpret "  QuIt " = Main.Quit /\ Main.interpret " Help" = Main.Help.
Proof.
  split.
  - apply (proj1 (reserved_words_any_case_and_padding "  " "QuIt" " " eq_refl eq_refl)).
    right. left. reflexivity.
  - apply (proj2 (reserved_words_any_case_and_padding " " "Help" "" eq_refl eq_refl)).
    reflexivity.
Defined.










(** A session of four lines: a task, the help word, a quit word in capitals
    followed by a no-break space, and a line that is never read. *)
Lemma interactive_session_example :
  Main.run_interactive nat (fun _ n => (None, Datatypes.S n)) (fun _ => None)
    ["Open example.com"; " help"; "EXIT" +:+ String (ascii_of_nat 160) ""; "take a screenshot"]
    0%nat
  = (["Open example.com"], None, 1%nat).
Proof. vm_compute. reflexivity. Qed.
